(** * crispy_forms.templatetags.crispy_forms_tags

    A shallow embedding of the [{% crispy %}] template tag of
    django-crispy-forms: the loop simulator injected into formset layouts,
    the construction of the response dictionary from a helper, the
    resolution of the form and helper in [BasicNode.get_render], the
    application of the helper's layout, and the choice of the top-level
    template in [CrispyFormNode.render].

    Python values are modelled by one inductive universe [PyObj]; Python
    dictionaries with string keys are [gmap string PyObj]; Python integers
    are [Z].  Functions of Django and of [crispy_forms.helper] that the tag
    module calls but does not define are the fields of the class [Django]. *)

From stdpp Require Import gmap strings list fin_maps.
From Stdlib Require Import ZArith Lia.

Set Warnings "-register-all".
Set Default Proof Using "Type".

Local Open Scope Z_scope.

(** ** Exceptions and results *)

Inductive Exception : Type :=
| TypeError            (* raised by [get_response_dict] itself *)
| KeyError             (* [d[k]] on a missing key *)
| AttributeError       (* attribute access or assignment the object does not support *)
| IndexError           (* [list.pop(i)] out of range *)
| External (name : string).  (* raised inside Django: VariableDoesNotExist, TemplateDoesNotExist, ... *)

Inductive Result (A : Type) : Type :=
| Ok (a : A)
| Raise (e : Exception).
Arguments Ok {A} a.
Arguments Raise {A} e.

Definition result_bind {A B} (r : Result A) (k : A -> Result B) : Result B :=
  match r with
  | Ok a => k a
  | Raise e => Raise e
  end.

(** ** ForLoopSimulator *)

Module ForLoopSimulator.

(** The instance attributes set by [__init__] and updated by [iterate]. *)
Record t : Type := mk {
  len_values : Z;
  counter : Z;
  counter0 : Z;
  revcounter : Z;
  revcounter0 : Z;
  first : bool;
  last : bool
}.

(** The body of [__init__] once [len(formset.forms)] is known. *)
Definition of_len (n : Z) : t :=
  {| len_values := n;
     counter := 1;
     counter0 := 0;
     revcounter := n;
     revcounter0 := n - 1;
     first := true;
     last := (0 =? n - 1) |}.

(** [iterate(self)]: the six assignments, in order; [last] is computed
    from the already decremented [revcounter0]. *)
Definition iterate (self : t) : t :=
  let counter' := counter self + 1 in
  let counter0' := counter0 self + 1 in
  let revcounter' := revcounter self - 1 in
  let revcounter0' := revcounter0 self - 1 in
  {| len_values := len_values self;
     counter := counter';
     counter0 := counter0';
     revcounter := revcounter';
     revcounter0 := revcounter0';
     first := false;
     last := (revcounter0' =? len_values self - 1) |}.

(** [k] successive calls of [iterate]. *)
Fixpoint iterate_n (k : nat) (self : t) : t :=
  match k with
  | O => self
  | S k' => iterate_n k' (iterate self)
  end.

End ForLoopSimulator.

(** ** The universe of Python objects *)

(** A layout object is opaque to the tag: only its presence is tested. *)
Definition Layout : Type := nat.

(** A compiled template, as returned by [get_template]: an opaque reference. *)
Definition Template : Type := nat.

Inductive PyObj : Type :=
| PNone
| PBool (b : bool)
| PStr (s : string)
| PList (l : list PyObj)
| PDict (d : gmap string PyObj)
| PForLoop (forloop : ForLoopSimulator.t)
  (** an instance of [FormHelper]: the dictionary its [get_attributes()]
      returns, and its [layout] attribute ([None] is Python's [None]) *)
| PHelper (attributes : gmap string PyObj) (layout : option Layout)
  (** an instance that is not a [BaseFormSet], identified by [id], with
      its [helper] attribute when it has one *)
| PForm (id : nat) (helper : option PyObj)
  (** an instance of [BaseFormSet], with its [helper] attribute when it
      has one and its [forms] *)
| PFormSet (id : nat) (helper : option PyObj) (forms : list PyObj).

(** [isinstance(o, FormHelper)] *)
Definition isinstance_FormHelper (o : PyObj) : bool :=
  match o with
  | PHelper _ _ => true
  | _ => false
  end.

(** [isinstance(o, BaseFormSet)] *)
Definition isinstance_BaseFormSet (o : PyObj) : bool :=
  match o with
  | PFormSet _ _ _ => true
  | _ => false
  end.

(** [getattr(o, 'helper')] when [hasattr(o, 'helper')], else [None]. *)
Definition getattr_helper (o : PyObj) : option PyObj :=
  match o with
  | PForm _ h => h
  | PFormSet _ h _ => h
  | _ => None
  end.

(** [o.forms] *)
Definition getattr_forms (o : PyObj) : Result (list PyObj) :=
  match o with
  | PFormSet _ _ forms => Ok forms
  | _ => Raise AttributeError
  end.

(** Python truthiness, for the objects of the universe. *)
Definition truthy (o : PyObj) : bool :=
  match o with
  | PNone => false
  | PBool b => b
  | PStr s => negb (String.eqb s "")
  | PList l => match l with [] => false | _ => true end
  | PDict d => negb (bool_decide (d = ∅))
  | _ => true
  end.

(** [ForLoopSimulator(formset)] *)
Definition ForLoopSimulator__init__ (formset : PyObj) : Result ForLoopSimulator.t :=
  result_bind (getattr_forms formset) (fun forms =>
  Ok (ForLoopSimulator.of_len (Z.of_nat (length forms)))).

(** ** Dictionaries *)

(** [d[k]] *)
Definition getitem (d : gmap string PyObj) (k : string) : Result PyObj :=
  match d !! k with
  | Some v => Ok v
  | None => Raise KeyError
  end.

(** [o.get(k, dflt)], for an object [o] that may or may not be a dictionary. *)
Definition dict_get (o : PyObj) (k : string) (dflt : PyObj) : Result PyObj :=
  match o with
  | PDict d => Ok (default dflt (d !! k))
  | _ => Raise AttributeError
  end.

(** A dictionary display [{k1: v1, ..., kn: vn}]: the entries are stored
    from left to right, a later entry replacing an earlier one with the
    same key. *)
Definition dict_display (entries : list (string * PyObj)) : gmap string PyObj :=
  foldl (fun d kv => <[fst kv := snd kv]> d) ∅ entries.

(** [d.update(other)] *)
Definition dict_update (d other : gmap string PyObj) : gmap string PyObj :=
  other ∪ d.

(** The order in which [d.items()] enumerates a dictionary is left to the
    Python implementation: any enumeration of the entries, each once. *)
Class DictOrder : Type := {
  dict_items : gmap string PyObj -> list (string * PyObj);
  dict_items_perm : forall d, dict_items d ≡ₚ map_to_list d
}.

(** Enumeration in the order of stdpp's [map_to_list]. *)
Definition canonical_order : DictOrder :=
  {| dict_items := map_to_list;
     dict_items_perm := fun d => reflexivity (map_to_list d) |}.

(** Enumeration in the opposite order. *)
Definition reverse_order : DictOrder :=
  {| dict_items := fun d => reverse (map_to_list d);
     dict_items_perm := fun d => reverse_Permutation (map_to_list d) |}.

(** ** BasicNode.get_response_dict *)

(** The loop over [attrs.items()]: an attribute is stored only under a key
    the response dictionary does not have yet. *)
Definition add_custom_attributes
    (items : list (string * PyObj)) (response_dict : gmap string PyObj)
    : gmap string PyObj :=
  foldl (fun rd kv =>
           match rd !! fst kv with
           | Some _ => rd
           | None => <[fst kv := snd kv]> rd
           end) response_dict items.

(** The keys of the dictionary display, for [form_type] in
    [{"form", "formset"}]. *)
Definition computed_keys (form_type : string) : list string :=
  [ form_type +:+ "_action"; form_type +:+ "_method"; form_type +:+ "_tag";
    form_type +:+ "_class"; form_type +:+ "_id"; form_type +:+ "_style";
    "form_error_title"; "formset_error_title"; "form_show_errors";
    "help_text_inline"; "html5_required"; "inputs"; "is_formset";
    form_type +:+ "_attrs"; "flat_attrs" ].

(** The dictionary display of [get_response_dict], given the dictionary
    [attrs] and the three values read from [attrs['attrs']]. *)
Definition response_dict_display (attrs : gmap string PyObj)
    (action class id : PyObj) (is_formset : bool) : gmap string PyObj :=
  let form_type := if is_formset then "formset" else "form" in
  dict_display
    [ (form_type +:+ "_action", action);
      (form_type +:+ "_method", default (PStr "post") (attrs !! "form_method"));
      (form_type +:+ "_tag", default (PBool true) (attrs !! "form_tag"));
      (form_type +:+ "_class", class);
      (form_type +:+ "_id", id);
      (form_type +:+ "_style", default PNone (attrs !! "form_style"));
      ("form_error_title", default PNone (attrs !! "form_error_title"));
      ("formset_error_title", default PNone (attrs !! "formset_error_title"));
      ("form_show_errors", default (PBool true) (attrs !! "form_show_errors"));
      ("help_text_inline", default (PBool false) (attrs !! "help_text_inline"));
      ("html5_required", default (PBool false) (attrs !! "html5_required"));
      ("inputs", default (PList []) (attrs !! "inputs"));
      ("is_formset", PBool is_formset);
      (form_type +:+ "_attrs", default (PStr "") (attrs !! "attrs"));
      ("flat_attrs", default (PStr "") (attrs !! "flat_attrs")) ].

(** [BasicNode.get_response_dict(self, helper, context, is_formset)];
    [self] is not used.  [attrs] is what [helper.get_attributes()]
    returned. *)
Definition get_response_dict `{O : DictOrder}
    (helper : PyObj) (context : gmap string PyObj) (is_formset : bool)
    : Result (gmap string PyObj) :=
  if negb (isinstance_FormHelper helper) then Raise TypeError else
  match helper with
  | PHelper attrs _ =>
    result_bind (getitem attrs "attrs") (fun attrs_attrs =>
    result_bind (dict_get attrs_attrs "action" (PStr "")) (fun action =>
    result_bind (dict_get attrs_attrs "class" (PStr "")) (fun class =>
    result_bind (dict_get attrs_attrs "id" (PStr "")) (fun id =>
    let response_dict := response_dict_display attrs action class id is_formset in
    (* Handles custom attributes added to helpers *)
    let response_dict := add_custom_attributes (dict_items attrs) response_dict in
    let response_dict :=
      match context !! "csrf_token" with
      | Some token => <["csrf_token" := token]> response_dict
      | None => response_dict
      end in
    Ok response_dict))))
  | _ => Raise AttributeError
  end.

(** ** The collaborators of the tag module *)

(** [template.Variable(name)] *)
Record TemplateVariable : Type := MkVariable { var : string }.

(** What the module calls in Django and in [crispy_forms.helper] without
    defining it.  The template loader has a state of its own (the template
    directories at the time of the call), which a lookup may read and
    change. *)
Class Django : Type := {
  Loader : Type;
  (** [Variable.resolve(context)] *)
  resolve : TemplateVariable -> gmap string PyObj -> Result PyObj;
  (** [helper.render_layout(form, context)], the markup it returns *)
  render_layout : PyObj -> PyObj -> gmap string PyObj -> string;
  (** [FormHelper()]: the attributes and the layout of a new helper *)
  new_helper_attributes : gmap string PyObj;
  new_helper_layout : option Layout;
  (** [django.template.loader.get_template(name)] *)
  get_template : string -> Loader -> Result Template * Loader;
  (** [template.render(c)] *)
  template_render : Template -> gmap string PyObj -> string
}.

(** [FormHelper()] *)
Definition FormHelper `{D : Django} : PyObj :=
  PHelper new_helper_attributes new_helper_layout.

(** [django.conf.settings], the two settings the module reads. *)
Record Settings : Type := {
  CRISPY_TEMPLATE_PACK : option string;
  DEBUG : bool
}.

(** ** The world: what a render pass can change or be observed doing *)

Inductive Event : Type :=
| CallRenderLayout (helper form : PyObj) (node_context : gmap string PyObj)
| SetFormHtml (form : PyObj) (html : string)
| CallGetTemplate (name : string)
| CallTemplateRender (template : Template) (c : gmap string PyObj).

Record World `{D : Django} : Type := MkWorld {
  (** [context.render_context], keyed by the identity of the node *)
  render_context : gmap nat (TemplateVariable * option TemplateVariable);
  (** the [form_html] attribute of the objects that have been given one,
      keyed by the identity of the object *)
  form_html : gmap nat string;
  loader : Loader;
  (** the calls and attribute writes so far, oldest first *)
  trace : list Event
}.

(** Computations that read and change the world and may raise; what was
    changed before an exception stays changed. *)
Definition M `{D : Django} (A : Type) : Type := World -> Result A * World.

Section Monad.
Context `{D : Django}.

Definition ret {A} (a : A) : M A := fun w => (Ok a, w).

Definition raise {A} (e : Exception) : M A := fun w => (Raise e, w).

Definition bind {A B} (m : M A) (k : A -> M B) : M B :=
  fun w =>
    match m w with
    | (Ok a, w') => k a w'
    | (Raise e, w') => (Raise e, w')
    end.

Definition lift {A} (r : Result A) : M A := fun w => (r, w).

Definition emit (e : Event) : M unit :=
  fun w => (Ok tt, MkWorld _ (render_context w) (form_html w) (loader w) (trace w ++ [e])).

End Monad.

Notation "x <- c1 ;; c2" := (bind c1 (fun x => c2))
  (at level 100, c1 at next level, right associativity).
Notation "c1 ;;; c2" := (bind c1 (fun _ => c2))
  (at level 100, right associativity).

(** ** BasicNode *)

Module BasicNode.

(** A node object: its identity and the two attributes set by the
    constructor, the names of the form and helper variables as they
    were written in the template. *)
Record t : Type := mk {
  self : nat;
  form : string;
  helper : option string
}.

(** [BasicNode.__init__(self, form, helper)] *)
Definition __init__ (self : nat) (form : string) (helper : option string) : t :=
  {| self := self;
     form := form;
     helper := match helper with
               | Some h => Some h
               | None => None
               end |}.

End BasicNode.

Section Tag.
Context `{D : Django} `{O : DictOrder}.

(** [form.form_html = html]: an instance takes the attribute; the
    builtin objects refuse it.  Helpers and loop simulators carry no
    identity in this universe and are treated like the builtins. *)
Definition setattr_form_html (form : PyObj) (html : string) : M unit :=
  match form with
  | PForm id _ | PFormSet id _ _ =>
    fun w => (Ok tt, MkWorld _ (render_context w) (<[id := html]> (form_html w))
                             (loader w) (trace w ++ [SetFormHtml form html]))
  | _ => raise AttributeError
  end.

(** [helper.layout] *)
Definition getattr_layout (helper : PyObj) : Result (option Layout) :=
  match helper with
  | PHelper _ layout => Ok layout
  | _ => Raise AttributeError
  end.

Definition call_render_layout (helper form : PyObj)
    (node_context : gmap string PyObj) : M string :=
  emit (CallRenderLayout helper form node_context) ;;;
  ret (render_layout helper form node_context).

Definition call_get_template (name : string) : M Template :=
  fun w =>
    let (r, loader') := get_template name (loader w) in
    (r, MkWorld _ (render_context w) (form_html w) loader'
                  (trace w ++ [CallGetTemplate name])).

Definition call_template_render (template : Template)
    (c : gmap string PyObj) : M string :=
  emit (CallTemplateRender template c) ;;;
  ret (template_render template c).

(** Lines 82-95 of [get_render]: the node's variables are created once
    per render context, then resolved; a helper that the tag does not
    name is taken from the form. *)
Definition resolve_form_and_helper (node : BasicNode.t)
    (context : gmap string PyObj) : M (PyObj * PyObj) :=
  (fun w =>
     match render_context w !! BasicNode.self node with
     | Some _ => (Ok tt, w)
     | None =>
       let entry :=
         (MkVariable (BasicNode.form node),
          match BasicNode.helper node with
          | Some h => if String.eqb h "" then None else Some (MkVariable h)
          | None => None
          end) in
       (Ok tt, MkWorld _ (<[BasicNode.self node := entry]> (render_context w))
                         (form_html w) (loader w) (trace w))
     end) ;;;
  entry <- (fun w => match render_context w !! BasicNode.self node with
                     | Some e => (Ok e, w)
                     | None => (Raise KeyError, w)
                     end) ;;
  let form := fst entry in
  let helper := snd entry in
  actual_form <- lift (resolve form context) ;;
  helper <- match BasicNode.helper node with
            | Some _ =>
              match helper with
              | Some v => lift (resolve v context)
              | None => raise AttributeError
              end
            | None =>
              (* If the user names the helper within the form `helper`
                 (standard), we use it *)
              ret (match getattr_helper actual_form with
                   | None => FormHelper
                   | Some h => h
                   end)
            end ;;
  ret (actual_form, helper).

(** Lines 109-112: the loop over [actual_form.forms].  The loop
    simulator is one object, stored again in the context at every turn
    and changed by [iterate] at the end of the turn: the context passed
    to [render_layout] holds its state at the time of the call. *)
Fixpoint render_formset_forms (helper : PyObj) (forms : list PyObj)
    (forloop : ForLoopSimulator.t) (node_context : gmap string PyObj)
    : M unit :=
  match forms with
  | [] => ret tt
  | form :: forms' =>
    let node_context := dict_update node_context {["forloop" := PForLoop forloop]} in
    html <- call_render_layout helper form node_context ;;
    setattr_form_html form html ;;;
    render_formset_forms helper forms' (ForLoopSimulator.iterate forloop) node_context
  end.

(** Lines 104-112: the helper's layout, when it has one, renders the
    form or each form of the formset. *)
Definition apply_layout (helper actual_form : PyObj) (is_formset : bool)
    (node_context : gmap string PyObj) : M unit :=
  if truthy helper then
    layout <- lift (getattr_layout helper) ;;
    match layout with
    | Some _ =>
      if negb is_formset then
        html <- call_render_layout helper actual_form node_context ;;
        setattr_form_html actual_form html
      else
        forloop <- lift (ForLoopSimulator__init__ actual_form) ;;
        forms <- lift (getattr_forms actual_form) ;;
        render_formset_forms helper forms forloop node_context
    | None => ret tt
    end
  else ret tt.

(** Lines 97-119: from the resolved form and helper to the returned
    [Context(response_dict)]. *)
Definition render_resolved (actual_form helper : PyObj)
    (context : gmap string PyObj) : M (gmap string PyObj) :=
  let is_formset := isinstance_BaseFormSet actual_form in
  response_dict <- lift (get_response_dict helper context is_formset) ;;
  let node_context := dict_update context response_dict in
  apply_layout helper actual_form is_formset node_context ;;;
  let response_dict :=
    if is_formset
    then dict_update response_dict {["formset" := actual_form]}
    else dict_update response_dict {["form" := actual_form]} in
  ret response_dict.

(** [BasicNode.get_render(self, context)] *)
Definition get_render (node : BasicNode.t) (context : gmap string PyObj)
    : M (gmap string PyObj) :=
  resolved <- resolve_form_and_helper node context ;;
  render_resolved (fst resolved) (snd resolved) context.

(** ** The module's globals and CrispyFormNode *)

Record TagModule : Type := {
  TEMPLATE_PACK : string;
  whole_uni_formset_template : Template;
  whole_uni_form_template : Template
}.

(** The module-level statements, run once when the module is imported. *)
Definition import_module (settings : Settings) : M TagModule :=
  let pack := default "bootstrap" (CRISPY_TEMPLATE_PACK settings) in
  formset_template <- call_get_template (pack +:+ "/whole_uni_formset.html") ;;
  form_template <- call_get_template (pack +:+ "/whole_uni_form.html") ;;
  ret {| TEMPLATE_PACK := pack;
         whole_uni_formset_template := formset_template;
         whole_uni_form_template := form_template |}.

(** [CrispyFormNode.render(self, context)] *)
Definition render (module : TagModule) (settings : Settings)
    (node : BasicNode.t) (context : gmap string PyObj) : M string :=
  c <- get_render node context ;;
  is_formset <- lift (getitem c "is_formset") ;;
  template <-
    (if truthy is_formset then
       if DEBUG settings
       then call_get_template (TEMPLATE_PACK module +:+ "/whole_uni_formset.html")
       else ret (whole_uni_formset_template module)
     else
       if DEBUG settings
       then call_get_template (TEMPLATE_PACK module +:+ "/whole_uni_form.html")
       else ret (whole_uni_form_template module)) ;;
  call_template_render template c.

End Tag.

(** [do_uni_form(parser, token)], from [token.split_contents()] on; the
    new node's identity is [self]. *)
Definition do_uni_form (self : nat) (token : list string) : Result BasicNode.t :=
  match token with
  | _ :: form :: token' =>
    let helper := match token' with
                  | helper :: _ => Some helper
                  | [] => None
                  end in
    Ok (BasicNode.__init__ self form helper)
  | _ => Raise IndexError
  end.

(** ** A concrete set of collaborators

    Variables are looked up by name in the context; the layout prints the
    [first] and [last] flags of the loop simulator it finds in its
    context; the loader records the names it was asked for and numbers
    the templates it returns. *)

Definition plain_resolve (v : TemplateVariable) (context : gmap string PyObj)
    : Result PyObj :=
  match context !! var v with
  | Some o => Ok o
  | None => Raise (External "VariableDoesNotExist")
  end.

Definition flags_layout (helper form : PyObj) (context : gmap string PyObj)
    : string :=
  match context !! "forloop" with
  | Some (PForLoop forloop) =>
    (if ForLoopSimulator.first forloop then "first " else "")
    +:+ (if ForLoopSimulator.last forloop then "last" else "")
  | _ => "no forloop"
  end.

Definition plain_django : Django :=
  {| Loader := list string;
     resolve := plain_resolve;
     render_layout := flags_layout;
     new_helper_attributes := {["attrs" := PDict ∅]};
     new_helper_layout := None;
     get_template := fun name loaded => (Ok (length loaded), loaded ++ [name]);
     template_render := fun template c => "" |}.

Definition empty_world : World (D := plain_django) :=
  MkWorld plain_django ∅ ∅ [] [].

(** The names of the templates looked up in a trace, oldest first. *)
Definition lookups (events : list Event) : list string :=
  omap (fun e => match e with CallGetTemplate name => Some name | _ => None end) events.

(** The objects whose [form_html] was assigned in a trace, oldest first. *)
Definition form_html_writes (events : list Event) : list PyObj :=
  omap (fun e => match e with SetFormHtml form _ => Some form | _ => None end) events.

(** The [(first, last)] flags of the loop simulator in the context of each
    call of [render_layout] in a trace, oldest first; [None] for a call
    whose context holds no loop simulator. *)
Definition forloop_flags (events : list Event) : list (option (bool * bool)) :=
  omap (fun e =>
          match e with
          | CallRenderLayout _ _ node_context =>
            Some match node_context !! "forloop" with
                 | Some (PForLoop forloop) =>
                   Some (ForLoopSimulator.first forloop, ForLoopSimulator.last forloop)
                 | _ => None
                 end
          | _ => None
          end) events.

(** ** What the properties below are stated with *)

(** The world after lines 82-87: the node is in the render context. *)
Definition with_node `{D : Django} (node : BasicNode.t) (w : World) : World :=
  match render_context w !! BasicNode.self node with
  | Some _ => w
  | None =>
    MkWorld _
      (<[BasicNode.self node :=
           (MkVariable (BasicNode.form node),
            match BasicNode.helper node with
            | Some h => if String.eqb h "" then None else Some (MkVariable h)
            | None => None
            end)]> (render_context w))
      (form_html w) (loader w) (trace w)
  end.

(** The objects that take a [form_html] attribute. *)
Definition has_identity (o : PyObj) : bool :=
  match o with
  | PForm _ _ | PFormSet _ _ _ => true
  | _ => false
  end.

(** The [(first, last)] flags of a loop simulator at [n] successive turns. *)
Fixpoint flags_from (forloop : ForLoopSimulator.t) (n : nat)
    : list (option (bool * bool)) :=
  match n with
  | O => []
  | S n' =>
    Some (ForLoopSimulator.first forloop, ForLoopSimulator.last forloop)
    :: flags_from (ForLoopSimulator.iterate forloop) n'
  end.

(** ** Concrete inputs *)

(** A helper that declares an attribute named like the security token
    and an attribute named like a computed key, and an ambient context
    that carries a token. *)
Definition token_attrs : gmap string PyObj :=
  <["attrs" := PDict ∅]>
    (<["csrf_token" := PStr "declared"]>
       (<["is_formset" := PStr "declared"]>
          (<["extra" := PStr "declared"]> ∅))).

Definition token_context : gmap string PyObj :=
  {["csrf_token" := PStr "ambient"]}.

(** What [get_response_dict] returns for them. *)
Definition token_response_dict : gmap string PyObj :=
  <["csrf_token" := PStr "ambient"]>
    (response_dict_display token_attrs (PStr "") (PStr "") (PStr "") false
     ∪ token_attrs).

(** A helper that sets nothing, and a form that carries it as its
    [helper] attribute. *)
Definition attached_helper : PyObj :=
  PHelper {["attrs" := PDict ∅]} None.

Definition form_with_helper : PyObj := PForm 1 (Some attached_helper).

(** A development configuration without a template pack of its own, the
    module as [import_module] builds it with the collaborators
    [plain_django], and the world after the import. *)
Definition debug_settings : Settings :=
  {| CRISPY_TEMPLATE_PACK := None; DEBUG := true |}.

Definition imported_module : TagModule :=
  {| TEMPLATE_PACK := "bootstrap";
     whole_uni_formset_template := 0%nat;
     whole_uni_form_template := 1%nat |}.

Definition imported_world : World (D := plain_django) :=
  MkWorld plain_django ∅ ∅
    ["bootstrap/whole_uni_formset.html"; "bootstrap/whole_uni_form.html"]
    [CallGetTemplate "bootstrap/whole_uni_formset.html";
     CallGetTemplate "bootstrap/whole_uni_form.html"].

Definition crispy_form_node : BasicNode.t := BasicNode.__init__ 7 "form" None.

Definition form_context : gmap string PyObj := {["form" := form_with_helper]}.

(** The form and the loop simulator, when the context holds one, of each
    call of [render_layout] in a trace, oldest first. *)
Definition forloop_seen (events : list Event)
    : list (PyObj * option ForLoopSimulator.t) :=
  omap (fun e =>
          match e with
          | CallRenderLayout _ form node_context =>
            Some (form,
                  match node_context !! "forloop" with
                  | Some (PForLoop forloop) => Some forloop
                  | _ => None
                  end)
          | _ => None
          end) events.

(** Collaborators whose loader finds no template. *)
Definition missing_templates_django : Django :=
  {| Loader := unit;
     resolve := plain_resolve;
     render_layout := flags_layout;
     new_helper_attributes := {["attrs" := PDict ∅]};
     new_helper_layout := None;
     get_template := fun name loaded => (Raise (External "TemplateDoesNotExist"), loaded);
     template_render := fun template c => "" |}.

(** ** Tactics *)

(** Two literals that differ.  The equation is introduced and
    discriminated by name, so that no other hypothesis is examined. *)
Ltac neq_literal := let E := fresh "E" in intros E; discriminate E.

(** Lookup of a literal key in a dictionary display with literal keys. *)
Ltac lookup_literal :=
  repeat (rewrite lookup_insert_ne by neq_literal);
  first [ rewrite lookup_insert_eq | rewrite lookup_empty ].

Ltac unfold_display :=
  unfold response_dict_display, dict_display;
  cbn [foldl fst snd String.app].

(** A literal key that is not among the computed keys. *)
Ltac not_computed_key :=
  let Hin := fresh "Hin" in
  intros Hin; cbn [computed_keys String.app] in Hin;
  repeat (apply elem_of_cons in Hin as [Hin|Hin]; [discriminate Hin|]);
  apply elem_of_nil in Hin; exact Hin.

(** * Properties *)

(** ** ForLoopSimulator *)

Section ForLoopSimulatorFacts.
Import ForLoopSimulator.

Lemma iterate_n_succ (k : nat) (s : t) :
  iterate_n (S k) s = iterate (iterate_n k s).
Proof.
  revert s. induction k as [|k IH]; intros s; [reflexivity|].
  change (iterate_n (S (S k)) s) with (iterate_n (S k) (iterate s)).
  rewrite IH. reflexivity.
Qed.

(** The state after [k] calls of [iterate], field by field. *)
Lemma iterate_n_fields (k : nat) (s : t) :
  len_values (iterate_n k s) = len_values s
  /\ counter (iterate_n k s) = counter s + Z.of_nat k
  /\ counter0 (iterate_n k s) = counter0 s + Z.of_nat k
  /\ revcounter (iterate_n k s) = revcounter s - Z.of_nat k
  /\ revcounter0 (iterate_n k s) = revcounter0 s - Z.of_nat k.
Proof.
  induction k as [|k IH].
  - cbn. repeat split; lia.
  - rewrite iterate_n_succ. destruct IH as (Hl & Hc & Hc0 & Hr & Hr0).
    cbn. rewrite Hl, Hc, Hc0, Hr, Hr0. repeat split; lia.
Qed.

(** After at least one call, [last] is the comparison of the current
    [revcounter0] with the initial one. *)
Lemma iterate_n_last (k : nat) (s : t) :
  last (iterate_n (S k) s) = (revcounter0 s - Z.of_nat (S k) =? len_values s - 1).
Proof.
  rewrite iterate_n_succ.
  destruct (iterate_n_fields k s) as (Hl & _ & _ & _ & Hr0).
  cbn [iterate last]. rewrite Hl, Hr0. f_equal. lia.
Qed.

End ForLoopSimulatorFacts.

(** C2. In a simulator built for a formset of [n] forms and already
    iterated [k] times, one more call of [iterate] adds one to [counter]
    and [counter0], takes one from [revcounter] and [revcounter0], sets
    [first] to false, and sets [last] to the comparison of the decremented
    [revcounter0] with [len_values - 1], where [len_values] is still [n].
    That is not the comparison with [0]: when the decremented
    [revcounter0] is [0] and [n] is at least 2, [last] is false. *)
Theorem C2_iterate_recurrence (n : Z) (k : nat) :
  let s := ForLoopSimulator.iterate_n k (ForLoopSimulator.of_len n) in
  let s' := ForLoopSimulator.iterate s in
  ForLoopSimulator.counter s' = ForLoopSimulator.counter s + 1
  /\ ForLoopSimulator.counter0 s' = ForLoopSimulator.counter0 s + 1
  /\ ForLoopSimulator.revcounter s' = ForLoopSimulator.revcounter s - 1
  /\ ForLoopSimulator.revcounter0 s' = ForLoopSimulator.revcounter0 s - 1
  /\ ForLoopSimulator.first s' = false
  /\ ForLoopSimulator.len_values s' = n
  /\ ForLoopSimulator.last s' = (ForLoopSimulator.revcounter0 s' =? n - 1)
  /\ (2 <= n -> ForLoopSimulator.revcounter0 s' = 0 ->
      ForLoopSimulator.last s' = false
      /\ ForLoopSimulator.last s' <> (ForLoopSimulator.revcounter0 s' =? 0)).
Proof.
  intros s s'.
  assert (Hlen : ForLoopSimulator.len_values s = n).
  { subst s. destruct (iterate_n_fields k (ForLoopSimulator.of_len n)) as [-> _].
    reflexivity. }
  assert (Hlast : ForLoopSimulator.last s' = (ForLoopSimulator.revcounter0 s' =? n - 1)).
  { subst s'. cbn. rewrite Hlen. reflexivity. }
  do 7 (split; [first [reflexivity | assumption]|]).
  intros Hn Hzero. rewrite Hlast, Hzero.
  assert (Hne : (0 =? n - 1) = false) by (apply Z.eqb_neq; lia).
  rewrite Hne. split; [reflexivity | discriminate].
Qed.

(** The recurrence at a formset of three forms, for the third call. *)
Lemma C2_iterate_recurrence_witness :
  let s' := ForLoopSimulator.iterate_n 2 (ForLoopSimulator.of_len 3) in
  ForLoopSimulator.revcounter0 s' = 0
  /\ ForLoopSimulator.last s' = false
  /\ ForLoopSimulator.last s' <> (ForLoopSimulator.revcounter0 s' =? 0).
Proof.
  pose proof (C2_iterate_recurrence 3 1) as H. cbv zeta in H.
  destruct H as (_ & _ & _ & _ & _ & _ & _ & H).
  split; [reflexivity|]. apply H; [lia | reflexivity].
Defined.

(** C3. For a formset of at least one form and after any positive number
    of calls of [iterate], [counter0 + revcounter0 = len_values - 1],
    where [len_values] is the number of forms. *)
Theorem C3_counter0_revcounter0_sum (n : Z) (k : nat) :
  1 <= n -> (1 <= k)%nat ->
  let s := ForLoopSimulator.iterate_n k (ForLoopSimulator.of_len n) in
  ForLoopSimulator.counter0 s + ForLoopSimulator.revcounter0 s = n - 1
  /\ ForLoopSimulator.len_values s = n.
Proof.
  intros _ _ s. subst s.
  destruct (iterate_n_fields k (ForLoopSimulator.of_len n)) as (Hl & _ & Hc0 & _ & Hr0).
  rewrite Hl, Hc0, Hr0. cbn. split; [lia | reflexivity].
Qed.

Lemma C3_counter0_revcounter0_sum_witness :
  let s := ForLoopSimulator.iterate_n 5 (ForLoopSimulator.of_len 3) in
  ForLoopSimulator.counter0 s + ForLoopSimulator.revcounter0 s = 3 - 1
  /\ ForLoopSimulator.len_values s = 3.
Proof.
  apply (C3_counter0_revcounter0_sum 3 5); lia.
Defined.

(** C10. For a formset of at least two forms, [last] is false when the
    simulator is built and after any number of calls of [iterate]. *)
Theorem C10_last_never_true (n : Z) (k : nat) :
  2 <= n ->
  ForLoopSimulator.last
    (ForLoopSimulator.iterate_n k (ForLoopSimulator.of_len n)) = false.
Proof.
  intros Hn. destruct k as [|k].
  - change ((0 =? n - 1) = false). apply Z.eqb_neq. lia.
  - rewrite iterate_n_last.
    change ((n - 1 - Z.of_nat (S k) =? n - 1) = false).
    apply Z.eqb_neq. lia.
Qed.

Lemma C10_last_never_true_witness :
  ForLoopSimulator.last
    (ForLoopSimulator.iterate_n 2 (ForLoopSimulator.of_len 3)) = false.
Proof.
  apply (C10_last_never_true 3 2). lia.
Defined.

(** ** get_response_dict *)

Section ResponseDictFacts.
Context `{O : DictOrder}.

(** The loop over the items keeps what the dictionary has and adds the
    items under the other keys. *)
Lemma add_custom_attributes_union (items : list (string * PyObj))
    (rd : gmap string PyObj) :
  add_custom_attributes items rd = rd ∪ list_to_map items.
Proof.
  revert rd. induction items as [|[k v] items IH]; intros rd.
  - cbn. symmetry. apply (right_id_L ∅ (∪)).
  - change (add_custom_attributes ((k, v) :: items) rd)
      with (add_custom_attributes items
              match rd !! k with Some _ => rd | None => <[k := v]> rd end).
    rewrite IH. cbn [list_to_map foldr fst snd].
    destruct (rd !! k) as [x|] eqn:Hk.
    + apply map_eq. intros i. rewrite !lookup_union.
      destruct (decide (k = i)) as [->|Hne].
      * rewrite Hk, lookup_insert_eq.
        destruct (list_to_map items !! i); reflexivity.
      * rewrite lookup_insert_ne by assumption. reflexivity.
    + rewrite <- insert_union_l. apply insert_union_r. assumption.
Qed.

Lemma list_to_map_dict_items (d : gmap string PyObj) :
  list_to_map (dict_items d) = d.
Proof.
  rewrite <- (list_to_map_to_list d) at 2.
  apply list_to_map_proper; [|apply dict_items_perm].
  rewrite (dict_items_perm d). apply NoDup_fst_map_to_list.
Qed.

Lemma add_custom_attributes_items (attrs rd : gmap string PyObj) :
  add_custom_attributes (dict_items attrs) rd = rd ∪ attrs.
Proof. rewrite add_custom_attributes_union, list_to_map_dict_items. reflexivity. Qed.

(** What [get_response_dict] returns for a helper, in closed form. *)
Lemma get_response_dict_helper (attrs : gmap string PyObj)
    (layout : option Layout) (context : gmap string PyObj) (is_formset : bool) :
  get_response_dict (PHelper attrs layout) context is_formset =
  result_bind (getitem attrs "attrs") (fun attrs_attrs =>
  result_bind (dict_get attrs_attrs "action" (PStr "")) (fun action =>
  result_bind (dict_get attrs_attrs "class" (PStr "")) (fun class =>
  result_bind (dict_get attrs_attrs "id" (PStr "")) (fun id =>
  let rd := response_dict_display attrs action class id is_formset ∪ attrs in
  Ok match context !! "csrf_token" with
     | Some token => <["csrf_token" := token]> rd
     | None => rd
     end)))).
Proof.
  unfold get_response_dict. cbn [isinstance_FormHelper negb].
  destruct (getitem attrs "attrs") as [a|]; [|reflexivity]. cbn [result_bind].
  destruct a; try reflexivity. cbn [dict_get result_bind].
  rewrite add_custom_attributes_items. reflexivity.
Qed.

End ResponseDictFacts.

Lemma response_dict_display_computed (attrs : gmap string PyObj)
    (action class id : PyObj) (is_formset : bool) (k : string) :
  k ∈ computed_keys (if is_formset then "formset" else "form") ->
  is_Some (response_dict_display attrs action class id is_formset !! k).
Proof.
  intros Hk. destruct is_formset; cbn [computed_keys String.app] in Hk;
    unfold_display;
    repeat (apply elem_of_cons in Hk as [->|Hk]; [lookup_literal; eexists; reflexivity|]);
    apply elem_of_nil in Hk; destruct Hk.
Qed.

Lemma response_dict_display_other (attrs : gmap string PyObj)
    (action class id : PyObj) (is_formset : bool) (k : string) :
  k ∉ computed_keys (if is_formset then "formset" else "form") ->
  response_dict_display attrs action class id is_formset !! k = None.
Proof.
  intros Hk. destruct is_formset; cbn [computed_keys String.app] in Hk;
    unfold_display;
    repeat (rewrite lookup_insert_ne
              by (intros <-; apply Hk; repeat first [apply list_elem_of_here | apply list_elem_of_further]));
    apply lookup_empty.
Qed.

(** C4. When the helper is not a [FormHelper], [get_response_dict] raises
    [TypeError] (the spec's InvalidHelperType) whatever the context and
    the kind of form; no response dictionary exists, and the part of
    [get_render] that follows the resolution of the helper stops there
    with the same error and leaves the world as it found it: no
    [form_html] was assigned, nothing was called. *)
Theorem C4_non_helper_raises_TypeError `{D : Django} `{O : DictOrder}
    (helper : PyObj) (context : gmap string PyObj) (is_formset : bool) :
  isinstance_FormHelper helper = false ->
  get_response_dict helper context is_formset = Raise TypeError
  /\ forall (actual_form : PyObj) (w : World),
       render_resolved actual_form helper context w = (Raise TypeError, w).
Proof.
  intros Hh.
  assert (Hraise : forall b, get_response_dict helper context b = Raise TypeError).
  { intros b. unfold get_response_dict. rewrite Hh. reflexivity. }
  split; [apply Hraise|].
  intros actual_form w. unfold render_resolved, bind, lift.
  rewrite Hraise. reflexivity.
Qed.

Lemma C4_non_helper_raises_TypeError_witness :
  get_response_dict (O := canonical_order) (PStr "helper") ∅ false = Raise TypeError
  /\ forall (actual_form : PyObj) (w : World (D := plain_django)),
       render_resolved (O := canonical_order) actual_form (PStr "helper") ∅ w
       = (Raise TypeError, w).
Proof.
  apply (C4_non_helper_raises_TypeError (D := plain_django) (O := canonical_order)).
  reflexivity.
Defined.

(** C6. Two invocations of [get_response_dict] on the same helper,
    context and kind of form return the same result: the same exception,
    or dictionaries that are equal key for key and value for value,
    whatever the order in which [attrs.items()] enumerates the helper's
    attributes at either invocation. *)
Theorem C6_get_response_dict_deterministic (O1 O2 : DictOrder)
    (helper : PyObj) (context : gmap string PyObj) (is_formset : bool) :
  get_response_dict (O := O1) helper context is_formset
  = get_response_dict (O := O2) helper context is_formset.
Proof.
  destruct helper; try reflexivity.
  rewrite (get_response_dict_helper (O := O1)).
  rewrite (get_response_dict_helper (O := O2)).
  reflexivity.
Qed.

(** The two enumeration orders defined above are different orders. *)
Remark dict_orders_differ :
  dict_items (DictOrder := canonical_order) token_attrs
  <> dict_items (DictOrder := reverse_order) token_attrs.
Proof.
  intros E. vm_compute in E. discriminate E.
Qed.

(** C8. For a form that is not a formset and a helper whose attributes
    hold a dictionary under ["attrs"], the response dictionary exists and
    holds [is_formset] with value false, and [form_action], [form_method]
    and [form_tag], each with the helper's option when it sets one and
    otherwise the default: the empty string, ["post"] and true. *)
Theorem C8_single_form_defaults `{O : DictOrder}
    (actual_form : PyObj) (attrs attrs_attrs : gmap string PyObj)
    (layout : option Layout) (context : gmap string PyObj) :
  isinstance_BaseFormSet actual_form = false ->
  attrs !! "attrs" = Some (PDict attrs_attrs) ->
  exists rd : gmap string PyObj,
    get_response_dict (PHelper attrs layout) context
      (isinstance_BaseFormSet actual_form) = Ok rd
    /\ rd !! "is_formset" = Some (PBool false)
    /\ rd !! "form_action" = Some (default (PStr "") (attrs_attrs !! "action"))
    /\ rd !! "form_method" = Some (default (PStr "post") (attrs !! "form_method"))
    /\ rd !! "form_tag" = Some (default (PBool true) (attrs !! "form_tag")).
Proof.
  intros -> Hattrs. rewrite get_response_dict_helper.
  unfold getitem. rewrite Hattrs. cbn [result_bind dict_get].
  eexists. split; [reflexivity|].
  destruct (context !! "csrf_token") as [token|];
    repeat split;
    try (rewrite lookup_insert_ne by neq_literal);
    apply lookup_union_Some_l; unfold_display; lookup_literal; reflexivity.
Qed.

(** The helper that sets nothing: the three keys hold the defaults. *)
Lemma C8_single_form_defaults_witness :
  exists rd : gmap string PyObj,
    get_response_dict (O := canonical_order)
      (PHelper {["attrs" := PDict ∅]} None) ∅
      (isinstance_BaseFormSet (PForm 1 None)) = Ok rd
    /\ rd !! "is_formset" = Some (PBool false)
    /\ rd !! "form_action" = Some (PStr "")
    /\ rd !! "form_method" = Some (PStr "post")
    /\ rd !! "form_tag" = Some (PBool true).
Proof.
  exact (C8_single_form_defaults (O := canonical_order)
           (PForm 1 None) {["attrs" := PDict ∅]} ∅ None ∅ eq_refl eq_refl).
Defined.

Lemma token_response_dict_eq :
  get_response_dict (O := canonical_order)
    (PHelper token_attrs None) token_context false = Ok token_response_dict.
Proof.
  rewrite get_response_dict_helper. unfold getitem.
  assert (Hattrs : token_attrs !! "attrs" = Some (PDict ∅))
    by (unfold token_attrs; lookup_literal; reflexivity).
  rewrite Hattrs. cbn [result_bind dict_get]. rewrite !lookup_empty.
  cbn [default]. unfold token_context. rewrite lookup_singleton_eq.
  reflexivity.
Qed.

Lemma csrf_token_not_computed (is_formset : bool) :
  "csrf_token" ∉ computed_keys (if is_formset then "formset" else "form").
Proof.
  intros Hin. destruct is_formset; cbn [computed_keys String.app] in Hin;
    repeat (apply elem_of_cons in Hin as [Hin|Hin]; [discriminate Hin|]);
    apply elem_of_nil in Hin; exact Hin.
Qed.

(** C9, as stated, fails: an attribute named [csrf_token] is not among
    the computed keys, yet the response dictionary holds the ambient
    context's token under that name, not the helper's value. *)
Lemma C9_custom_keys_counterexample :
  get_response_dict (O := canonical_order)
    (PHelper token_attrs None) token_context false = Ok token_response_dict
  /\ token_attrs !! "csrf_token" = Some (PStr "declared")
  /\ ("csrf_token" ∉ computed_keys "form")
  /\ token_response_dict !! "csrf_token" = Some (PStr "ambient")
  /\ token_response_dict !! "csrf_token" <> Some (PStr "declared").
Proof.
  split; [exact token_response_dict_eq|].
  split; [unfold token_attrs; lookup_literal; reflexivity|].
  split; [exact (csrf_token_not_computed false)|].
  assert (Htoken : token_response_dict !! "csrf_token" = Some (PStr "ambient"))
    by (unfold token_response_dict; apply lookup_insert_eq).
  split; [exact Htoken|]. rewrite Htoken. neq_literal.
Qed.

(** C9, amended.  When [get_response_dict] returns a dictionary [rd] and
    the helper declares an attribute [k] with value [v]:
    - if [k] is not a computed key, and is not [csrf_token] while the
      ambient context carries a token, then [rd] holds [v] under [k];
    - if [k] is a computed key, then [rd] holds under [k] the value of the
      dictionary display, whatever [v] is. *)
Theorem C9_custom_keys_pass_through `{O : DictOrder}
    (attrs : gmap string PyObj) (layout : option Layout)
    (context : gmap string PyObj) (is_formset : bool)
    (rd : gmap string PyObj) (k : string) (v : PyObj) :
  get_response_dict (PHelper attrs layout) context is_formset = Ok rd ->
  attrs !! k = Some v ->
  ((k ∉ computed_keys (if is_formset then "formset" else "form")) ->
   k <> "csrf_token" \/ context !! "csrf_token" = None ->
   rd !! k = Some v)
  /\ ((k ∈ computed_keys (if is_formset then "formset" else "form")) ->
      exists attrs_attrs : gmap string PyObj,
        attrs !! "attrs" = Some (PDict attrs_attrs)
        /\ is_Some (rd !! k)
        /\ rd !! k =
           response_dict_display attrs
             (default (PStr "") (attrs_attrs !! "action"))
             (default (PStr "") (attrs_attrs !! "class"))
             (default (PStr "") (attrs_attrs !! "id"))
             is_formset !! k).
Proof.
  intros Hrd Hk. rewrite get_response_dict_helper in Hrd.
  unfold getitem in Hrd.
  destruct (attrs !! "attrs") as [a|] eqn:Hattrs; [|discriminate Hrd].
  destruct a as [| | | |attrs_attrs| | | |]; try discriminate Hrd.
  cbn [result_bind dict_get] in Hrd.
  set (display := response_dict_display attrs
                    (default (PStr "") (attrs_attrs !! "action"))
                    (default (PStr "") (attrs_attrs !! "class"))
                    (default (PStr "") (attrs_attrs !! "id")) is_formset) in *.
  cbv zeta in Hrd.
  assert (Hrd' : rd = match context !! "csrf_token" with
                      | Some token => <["csrf_token" := token]> (display ∪ attrs)
                      | None => display ∪ attrs
                      end) by congruence.
  clear Hrd. split.
  - intros Hnot Htoken.
    assert (Hunion : (display ∪ attrs) !! k = Some v).
    { rewrite lookup_union_r by (apply response_dict_display_other; exact Hnot).
      exact Hk. }
    rewrite Hrd'.
    destruct (context !! "csrf_token") as [token|]; [|exact Hunion].
    destruct Htoken as [Hne|Hnone]; [|discriminate Hnone].
    rewrite lookup_insert_ne by (intros E; apply Hne; symmetry; exact E).
    exact Hunion.
  - intros Hin. exists attrs_attrs. split; [reflexivity|]. fold display.
    destruct (response_dict_display_computed attrs
                (default (PStr "") (attrs_attrs !! "action"))
                (default (PStr "") (attrs_attrs !! "class"))
                (default (PStr "") (attrs_attrs !! "id")) is_formset k Hin)
      as [x Hx].
    fold display in Hx.
    assert (Hne : "csrf_token" <> k).
    { intros <-. exact (csrf_token_not_computed is_formset Hin). }
    assert (Hunion : (display ∪ attrs) !! k = Some x)
      by (apply lookup_union_Some_l; exact Hx).
    assert (Hrdk : rd !! k = Some x).
    { rewrite Hrd'. destruct (context !! "csrf_token") as [token|];
        [rewrite lookup_insert_ne by exact Hne|]; exact Hunion. }
    rewrite Hrdk, Hx. split; [eexists; reflexivity | reflexivity].
Qed.

(** The attribute [extra] passes through; the attribute [is_formset]
    does not replace the computed value. *)
Lemma C9_custom_keys_pass_through_witness :
  token_response_dict !! "extra" = Some (PStr "declared")
  /\ token_response_dict !! "is_formset" = Some (PBool false).
Proof.
  pose proof token_response_dict_eq as Hrd.
  split.
  - assert (Hk : token_attrs !! "extra" = Some (PStr "declared"))
      by (unfold token_attrs; lookup_literal; reflexivity).
    apply (proj1 (C9_custom_keys_pass_through (O := canonical_order)
                    token_attrs None token_context false token_response_dict
                    "extra" (PStr "declared") Hrd Hk)).
    + intros Hin. cbn [computed_keys String.app] in Hin.
      repeat (apply elem_of_cons in Hin as [Hin|Hin]; [discriminate Hin|]).
      apply elem_of_nil in Hin. exact Hin.
    + left. neq_literal.
  - assert (Hk : token_attrs !! "is_formset" = Some (PStr "declared"))
      by (unfold token_attrs; lookup_literal; reflexivity).
    destruct (proj2 (C9_custom_keys_pass_through (O := canonical_order)
                       token_attrs None token_context false token_response_dict
                       "is_formset" (PStr "declared") Hrd Hk))
      as (attrs_attrs & _ & _ & Heq).
    + cbn [computed_keys String.app].
      repeat first [apply list_elem_of_here | apply list_elem_of_further].
    + rewrite Heq. unfold_display. lookup_literal. reflexivity.
Defined.

(** ** get_render *)

Section GetRenderFacts.
Context `{D : Django} `{O : DictOrder}.

(** A dictionary returned by the second part of [get_render] is the
    response dictionary of the helper, with the form added. *)
Lemma render_resolved_Ok (actual_form helper : PyObj)
    (context c : gmap string PyObj) (w w' : World) :
  render_resolved actual_form helper context w = (Ok c, w') ->
  exists rd : gmap string PyObj,
    get_response_dict helper context (isinstance_BaseFormSet actual_form) = Ok rd
    /\ c = dict_update rd
             {[(if isinstance_BaseFormSet actual_form then "formset" else "form")
               := actual_form]}.
Proof.
  unfold render_resolved, bind, lift, ret.
  destruct (get_response_dict helper context (isinstance_BaseFormSet actual_form))
    as [rd|e]; [|intros Hr; discriminate Hr].
  destruct (apply_layout helper actual_form (isinstance_BaseFormSet actual_form)
              (dict_update context rd) w) as [[[]|e] w1];
    [|intros Hr; discriminate Hr].
  intros Hr. exists rd. split; [reflexivity|].
  destruct (isinstance_BaseFormSet actual_form); congruence.
Qed.

Lemma render_resolved_Raise (actual_form helper : PyObj)
    (context : gmap string PyObj) (e : Exception) (w : World) :
  get_response_dict helper context (isinstance_BaseFormSet actual_form) = Raise e ->
  render_resolved actual_form helper context w = (Raise e, w).
Proof.
  intros He. unfold render_resolved, bind, lift. rewrite He. reflexivity.
Qed.

Lemma with_node_frame (node : BasicNode.t) (w : World) :
  form_html (with_node node w) = form_html w
  /\ loader (with_node node w) = loader w
  /\ trace (with_node node w) = trace w.
Proof.
  unfold with_node. destruct (render_context w !! BasicNode.self node);
    repeat split; reflexivity.
Qed.

(** Resolution for a node without a helper variable, in a render context
    that does not know the node yet or knows it as this node. *)
Lemma resolve_form_and_helper_omitted (node : BasicNode.t)
    (context : gmap string PyObj) (w : World) (actual_form : PyObj) :
  BasicNode.helper node = None ->
  render_context w !! BasicNode.self node = None
    \/ render_context w !! BasicNode.self node
       = Some (MkVariable (BasicNode.form node), None) ->
  resolve (MkVariable (BasicNode.form node)) context = Ok actual_form ->
  resolve_form_and_helper node context w =
    (Ok (actual_form,
         match getattr_helper actual_form with
         | None => FormHelper
         | Some h => h
         end),
     with_node node w).
Proof.
  intros Hnone Hrc Hform.
  unfold resolve_form_and_helper, with_node, bind, lift, ret.
  rewrite Hnone. destruct Hrc as [Hrc|Hrc]; rewrite Hrc.
  - cbn [render_context]. rewrite lookup_insert_eq. cbn [fst snd].
    rewrite Hform. reflexivity.
  - rewrite Hrc. cbn [fst snd]. rewrite Hform. reflexivity.
Qed.

End GetRenderFacts.

(** C7. The tag [{% crispy form %}] names no helper: the node it builds
    has none, and rendering it, in a render context that does not know
    the node or knows it as this node, where the form variable resolves to
    [actual_form], uses the [helper] attribute of [actual_form] when it has
    one and a new [FormHelper()] when it has none.  That helper is the one
    whose response dictionary [get_render] returns, with the form added,
    and whose exception [get_render] raises. *)
Theorem C7_omitted_helper_resolution `{D : Django} `{O : DictOrder}
    (self : nat) (tag form_name : string)
    (context : gmap string PyObj) (w : World) (actual_form : PyObj) :
  let node := BasicNode.__init__ self form_name None in
  let helper := match getattr_helper actual_form with
                | Some h => h
                | None => FormHelper
                end in
  let is_formset := isinstance_BaseFormSet actual_form in
  render_context w !! self = None
    \/ render_context w !! self = Some (MkVariable form_name, None) ->
  resolve (MkVariable form_name) context = Ok actual_form ->
  do_uni_form self [tag; form_name] = Ok node
  /\ resolve_form_and_helper node context w
     = (Ok (actual_form, helper), with_node node w)
  /\ get_render node context w
     = render_resolved actual_form helper context (with_node node w)
  /\ (forall e, get_response_dict helper context is_formset = Raise e ->
                get_render node context w = (Raise e, with_node node w))
  /\ (forall c w', get_render node context w = (Ok c, w') ->
        exists rd, get_response_dict helper context is_formset = Ok rd
                   /\ c = dict_update rd
                            {[(if is_formset then "formset" else "form")
                              := actual_form]}).
Proof.
  intros node helper is_formset Hrc Hform.
  assert (Hres : resolve_form_and_helper node context w
                 = (Ok (actual_form, helper), with_node node w)).
  { rewrite (resolve_form_and_helper_omitted node context w actual_form);
      [|reflexivity|exact Hrc|exact Hform].
    subst helper. destruct (getattr_helper actual_form); reflexivity. }
  assert (Hget : get_render node context w
                 = render_resolved actual_form helper context (with_node node w)).
  { unfold get_render, bind. rewrite Hres. reflexivity. }
  split; [reflexivity|]. split; [exact Hres|]. split; [exact Hget|]. split.
  - intros e He. rewrite Hget. apply render_resolved_Raise. exact He.
  - intros c w' Hc. rewrite Hget in Hc.
    apply (render_resolved_Ok _ _ _ _ _ _ Hc).
Qed.

(** [form.helper = H; {% crispy form %}] resolves to [H]. *)
Lemma C7_omitted_helper_resolution_witness :
  resolve_form_and_helper (D := plain_django)
    (BasicNode.__init__ 7 "form" None) {["form" := form_with_helper]} empty_world
  = (Ok (form_with_helper, attached_helper),
     with_node (BasicNode.__init__ 7 "form" None) empty_world).
Proof.
  refine (proj1 (proj2 (C7_omitted_helper_resolution
                          (D := plain_django) (O := canonical_order)
                          7 "crispy" "form" {["form" := form_with_helper]}
                          empty_world form_with_helper _ _))).
  - left. apply lookup_empty.
  - unfold resolve, plain_django, plain_resolve. cbn [var].
    rewrite lookup_singleton_eq. reflexivity.
Defined.

(** ** The layout of a formset *)

Section LayoutFacts.
Context `{D : Django}.

(** One turn of the loop, for a form that takes the attribute. *)
Lemma render_formset_forms_turn (helper form : PyObj) (forms : list PyObj)
    (forloop : ForLoopSimulator.t) (node_context : gmap string PyObj)
    (w : World) :
  has_identity form = true ->
  let ctx := dict_update node_context {["forloop" := PForLoop forloop]} in
  exists w1 : World,
    render_formset_forms helper (form :: forms) forloop node_context w
    = render_formset_forms helper forms (ForLoopSimulator.iterate forloop) ctx w1
    /\ trace w1 = trace w ++ [CallRenderLayout helper form ctx;
                              SetFormHtml form (render_layout helper form ctx)]
    /\ loader w1 = loader w
    /\ render_context w1 = render_context w.
Proof.
  intros Hform ctx.
  destruct form; try discriminate Hform;
    (eexists; split; [reflexivity|]);
    cbn [trace loader render_context];
    rewrite <- app_assoc; repeat split; reflexivity.
Qed.

(** The loop over the forms of a formset: every form is rendered and
    written once, in order, and the context of each rendering holds the
    loop simulator as the turns before it left it. *)
Lemma render_formset_forms_trace (helper : PyObj) (forms : list PyObj) :
  forallb has_identity forms = true ->
  forall (forloop : ForLoopSimulator.t) (node_context : gmap string PyObj)
         (w : World),
    let out := render_formset_forms helper forms forloop node_context w in
    fst out = Ok tt
    /\ form_html_writes (trace (snd out)) = form_html_writes (trace w) ++ forms
    /\ forloop_flags (trace (snd out))
       = forloop_flags (trace w) ++ flags_from forloop (length forms)
    /\ lookups (trace (snd out)) = lookups (trace w)
    /\ loader (snd out) = loader w
    /\ render_context (snd out) = render_context w.
Proof.
  induction forms as [|form forms IH]; intros Hid forloop node_context w.
  - cbn. rewrite !app_nil_r. repeat split; reflexivity.
  - cbn [forallb] in Hid. apply andb_prop in Hid as [Hform Hforms].
    specialize (IH Hforms).
    destruct (render_formset_forms_turn helper form forms forloop node_context w Hform)
      as (w1 & Heq & Htrace & Hloader & Hrc).
    set (ctx := dict_update node_context {["forloop" := PForLoop forloop]}) in *.
    assert (Hctx : ctx !! "forloop" = Some (PForLoop forloop)).
    { subst ctx. unfold dict_update. apply lookup_union_Some_l.
      apply lookup_singleton_eq. }
    clearbody ctx. cbv zeta. rewrite Heq.
    destruct (IH (ForLoopSimulator.iterate forloop) ctx w1)
      as (Hok & Hw & Hf & Hl & Hld & Hr).
    rewrite Htrace in Hw, Hf, Hl.
    split; [exact Hok|].
    split; [rewrite Hw; unfold form_html_writes;
            rewrite omap_app; cbn [omap list_omap]; rewrite <- app_assoc; reflexivity|].
    split; [rewrite Hf; unfold forloop_flags;
            rewrite omap_app; cbn [omap list_omap]; rewrite Hctx;
            rewrite <- app_assoc; reflexivity|].
    split; [rewrite Hl; unfold lookups;
            rewrite omap_app; cbn [omap list_omap]; apply app_nil_r|].
    split; [rewrite Hld; exact Hloader | rewrite Hr; exact Hrc].
Qed.

End LayoutFacts.

(** C1 (the code at a formset of three forms).  With a helper that has a
    layout, [apply_layout] renders and writes each of the three forms
    once, in the order of [formset.forms]; the loop simulator that the
    layout finds in its context has [(first, last)] equal to
    [(true, false)], then [(false, false)], then again [(false, false)]:
    [last] is not true at the third form. *)
Theorem C1_formset_three_forms_flags `{D : Django}
    (attrs : gmap string PyObj) (layout : Layout)
    (id : nat) (formset_helper : option PyObj)
    (id1 id2 id3 : nat) (helper1 helper2 helper3 : option PyObj)
    (node_context : gmap string PyObj) (w : World) :
  let helper := PHelper attrs (Some layout) in
  let form1 := PForm id1 helper1 in
  let form2 := PForm id2 helper2 in
  let form3 := PForm id3 helper3 in
  let formset := PFormSet id formset_helper [form1; form2; form3] in
  let out := apply_layout helper formset (isinstance_BaseFormSet formset)
               node_context w in
  fst out = Ok tt
  /\ form_html_writes (trace (snd out))
     = form_html_writes (trace w) ++ [form1; form2; form3]
  /\ forloop_flags (trace (snd out))
     = forloop_flags (trace w)
       ++ [Some (true, false); Some (false, false); Some (false, false)].
Proof.
  intros helper form1 form2 form3 formset out.
  destruct (render_formset_forms_trace helper [form1; form2; form3] eq_refl
              (ForLoopSimulator.of_len 3) node_context w)
    as (Hok & Hwrites & Hflags & _).
  split; [exact Hok|]. split; [exact Hwrites|]. exact Hflags.
Qed.

(** ** The frame of get_render: it looks no template up *)

Section FrameFacts.
Context `{D : Django} `{O : DictOrder}.

Lemma render_formset_forms_frame (helper : PyObj) (forms : list PyObj) :
  forall (forloop : ForLoopSimulator.t) (node_context : gmap string PyObj)
         (w : World),
    let out := render_formset_forms helper forms forloop node_context w in
    lookups (trace (snd out)) = lookups (trace w)
    /\ loader (snd out) = loader w
    /\ render_context (snd out) = render_context w.
Proof.
  induction forms as [|form forms IH]; intros forloop node_context w.
  - repeat split; reflexivity.
  - destruct (has_identity form) eqn:Hform.
    + destruct (render_formset_forms_turn helper form forms forloop
                  node_context w Hform) as (w1 & Heq & Htrace & Hloader & Hrc).
      cbv zeta. rewrite Heq.
      destruct (IH (ForLoopSimulator.iterate forloop)
                  (dict_update node_context {["forloop" := PForLoop forloop]}) w1)
        as (Hl & Hld & Hr).
      rewrite Hl, Hld, Hr, Htrace, Hloader, Hrc.
      unfold lookups. rewrite omap_app. cbn [omap list_omap].
      rewrite app_nil_r. repeat split; reflexivity.
    + destruct form; try discriminate Hform;
        cbn [render_formset_forms bind call_render_layout emit ret
             setattr_form_html raise snd trace loader render_context];
        unfold lookups; rewrite omap_app; cbn [omap list_omap];
        rewrite app_nil_r; repeat split; reflexivity.
Qed.

Lemma apply_layout_frame (helper actual_form : PyObj) (is_formset : bool)
    (node_context : gmap string PyObj) (w : World) :
  let out := apply_layout helper actual_form is_formset node_context w in
  lookups (trace (snd out)) = lookups (trace w)
  /\ loader (snd out) = loader w
  /\ render_context (snd out) = render_context w.
Proof.
  unfold apply_layout.
  destruct (truthy helper); [|repeat split; reflexivity].
  unfold bind at 1, lift at 1.
  destruct (getattr_layout helper) as [[layout|]|e];
    try (repeat split; reflexivity).
  destruct is_formset; cbn [negb].
  - unfold bind at 1, lift at 1.
    destruct (ForLoopSimulator__init__ actual_form) as [forloop|e];
      [|repeat split; reflexivity].
    unfold bind at 1, lift at 1.
    destruct (getattr_forms actual_form) as [forms|e];
      [|repeat split; reflexivity].
    apply render_formset_forms_frame.
  - destruct actual_form;
      cbn [bind call_render_layout emit ret setattr_form_html raise snd
           trace loader render_context];
      unfold lookups; rewrite ?omap_app; cbn [omap list_omap];
      rewrite ?app_nil_r; repeat split; reflexivity.
Qed.

End FrameFacts.

Section RenderFacts.
Context `{D : Django} `{O : DictOrder}.

Lemma get_response_dict_is_formset (helper : PyObj)
    (context rd : gmap string PyObj) (is_formset : bool) :
  get_response_dict helper context is_formset = Ok rd ->
  rd !! "is_formset" = Some (PBool is_formset).
Proof.
  destruct helper as [| | | | | |attrs layout| |];
    try (intros Hr; discriminate Hr).
  rewrite get_response_dict_helper. unfold getitem.
  destruct (attrs !! "attrs") as [a|]; [|intros Hr; discriminate Hr].
  destruct a as [| | | |attrs_attrs| | | |]; try (intros Hr; discriminate Hr).
  cbn [result_bind dict_get]. cbv zeta. intros Hr. injection Hr as <-.
  destruct (context !! "csrf_token") as [token|];
    try (rewrite lookup_insert_ne by neq_literal);
    apply lookup_union_Some_l;
    destruct is_formset; unfold_display; lookup_literal; reflexivity.
Qed.

(** What the second part of [get_render] leaves behind, when it returns. *)
Lemma render_resolved_frame (actual_form helper : PyObj)
    (context c : gmap string PyObj) (w w' : World) :
  render_resolved actual_form helper context w = (Ok c, w') ->
  c !! "is_formset" = Some (PBool (isinstance_BaseFormSet actual_form))
  /\ lookups (trace w') = lookups (trace w)
  /\ loader w' = loader w
  /\ render_context w' = render_context w.
Proof.
  intros Hr.
  destruct (render_resolved_Ok _ _ _ _ _ _ Hr) as (rd & Hrd & ->).
  split.
  - unfold dict_update. rewrite lookup_union_r.
    + exact (get_response_dict_is_formset _ _ _ _ Hrd).
    + destruct (isinstance_BaseFormSet actual_form);
        apply lookup_singleton_ne; neq_literal.
  - unfold render_resolved, bind, lift, ret in Hr. rewrite Hrd in Hr.
    pose proof (apply_layout_frame helper actual_form
                  (isinstance_BaseFormSet actual_form)
                  (dict_update context rd) w) as Hframe.
    cbv zeta in Hframe.
    destruct (apply_layout helper actual_form (isinstance_BaseFormSet actual_form)
                (dict_update context rd) w) as [[[]|e] w1];
      [|discriminate Hr].
    injection Hr as _ <-. exact Hframe.
Qed.

(** The resolution of the form and helper touches the render context
    only. *)
Lemma resolve_form_and_helper_frame (node : BasicNode.t)
    (context : gmap string PyObj) (w : World) :
  let out := resolve_form_and_helper node context w in
  trace (snd out) = trace w /\ loader (snd out) = loader w.
Proof.
  unfold resolve_form_and_helper, bind, lift, ret, raise.
  destruct (render_context w !! BasicNode.self node) as [entry|] eqn:Hrc.
  - rewrite Hrc.
    destruct (resolve (fst entry) context); [|split; reflexivity].
    destruct (BasicNode.helper node); [|split; reflexivity].
    destruct (snd entry) as [v|]; [|split; reflexivity].
    destruct (resolve v context); split; reflexivity.
  - cbn [render_context]. rewrite lookup_insert_eq. cbn [fst snd].
    destruct (resolve (MkVariable (BasicNode.form node)) context);
      [|split; reflexivity].
    destruct (BasicNode.helper node) as [h|]; [|split; reflexivity].
    destruct (String.eqb h ""); [split; reflexivity|].
    destruct (resolve (MkVariable h) context); split; reflexivity.
Qed.

(** [import_module], when it succeeds: two lookups, the formset template
    first, by the names built from the configured pack. *)
Lemma import_module_Ok (settings : Settings) (w w' : World)
    (module : TagModule) :
  import_module settings w = (Ok module, w') ->
  let pack := default "bootstrap" (CRISPY_TEMPLATE_PACK settings) in
  TEMPLATE_PACK module = pack
  /\ lookups (trace w')
     = lookups (trace w)
       ++ [pack +:+ "/whole_uni_formset.html"; pack +:+ "/whole_uni_form.html"]
  /\ exists loader1 : Loader,
       get_template (pack +:+ "/whole_uni_formset.html") (loader w)
       = (Ok (whole_uni_formset_template module), loader1)
       /\ get_template (pack +:+ "/whole_uni_form.html") loader1
          = (Ok (whole_uni_form_template module), loader w').
Proof.
  intros Himport pack. unfold import_module, bind, call_get_template, ret in Himport.
  fold pack in Himport.
  destruct (get_template (pack +:+ "/whole_uni_formset.html") (loader w))
    as [[t1|e1] loader1] eqn:H1; [|discriminate Himport].
  cbn [loader] in Himport.
  destruct (get_template (pack +:+ "/whole_uni_form.html") loader1)
    as [[t2|e2] loader2] eqn:H2; [|discriminate Himport].
  injection Himport as <- <-. cbn [TEMPLATE_PACK trace loader
    whole_uni_formset_template whole_uni_form_template].
  split; [reflexivity|]. split.
  - unfold lookups. rewrite !omap_app. cbn [omap list_omap].
    rewrite <- app_assoc. reflexivity.
  - exists loader1. split; [reflexivity | exact H2].
Qed.

End RenderFacts.

Lemma lookups_app (events events' : list Event) :
  lookups (events ++ events') = lookups events ++ lookups events'.
Proof. unfold lookups. apply omap_app. Qed.

Section TemplateSelection.
Context `{D : Django} `{O : DictOrder}.
Context (module : TagModule) (settings : Settings) (node : BasicNode.t)
        (context : gmap string PyObj) (w w0 w1 : World)
        (actual_form helper : PyObj) (c : gmap string PyObj).
Hypothesis Hresolve :
  resolve_form_and_helper node context w = (Ok (actual_form, helper), w0).
Hypothesis Hresolved :
  render_resolved actual_form helper context w0 = (Ok c, w1).

Lemma get_render_Ok : get_render node context w = (Ok c, w1).
Proof using Hresolve Hresolved.
  unfold get_render, bind. rewrite Hresolve. exact Hresolved.
Qed.

Lemma get_render_frame :
  c !! "is_formset" = Some (PBool (isinstance_BaseFormSet actual_form))
  /\ lookups (trace w1) = lookups (trace w)
  /\ loader w1 = loader w.
Proof using Hresolve Hresolved.
  destruct (render_resolved_frame _ _ _ _ _ _ Hresolved) as (His & Hl & Hld & _).
  pose proof (resolve_form_and_helper_frame node context w) as Hframe.
  cbv zeta in Hframe. rewrite Hresolve in Hframe. cbn [snd] in Hframe.
  destruct Hframe as [Htrace Hloader].
  split; [exact His|]. split; congruence.
Qed.

(** With [settings.DEBUG], [render] asks the loader for the template. *)
Lemma render_debug :
  DEBUG settings = true ->
  let name := TEMPLATE_PACK module
              +:+ (if isinstance_BaseFormSet actual_form
                   then "/whole_uni_formset.html" else "/whole_uni_form.html") in
  let out := render module settings node context w in
  lookups (trace (snd out)) = lookups (trace w) ++ [name]
  /\ loader (snd out) = snd (get_template name (loader w))
  /\ fst out = match fst (get_template name (loader w)) with
               | Ok template => Ok (template_render template c)
               | Raise e => Raise e
               end.
Proof using Hresolve Hresolved.
  intros Hdebug name out.
  destruct get_render_frame as (His & Hl & Hld).
  assert (Hout : out = bind (call_get_template name)
                         (fun template => call_template_render template c) w1).
  { subst out name. unfold render. unfold bind at 1. rewrite get_render_Ok.
    unfold bind at 1, lift, getitem. rewrite His. cbn [truthy].
    rewrite Hdebug. destruct (isinstance_BaseFormSet actual_form); reflexivity. }
  rewrite Hout. unfold call_get_template, call_template_render, emit, ret, bind.
  rewrite Hld.
  destruct (get_template name (loader w)) as [[template|e] loader'];
    cbn [fst snd trace loader];
    rewrite ?lookups_app, Hl; cbn [lookups omap list_omap];
    rewrite ?app_nil_r; repeat split; reflexivity.
Qed.

(** Without it, [render] uses the template stored in the module. *)
Lemma render_cached :
  DEBUG settings = false ->
  let cached := if isinstance_BaseFormSet actual_form
                then whole_uni_formset_template module
                else whole_uni_form_template module in
  render module settings node context w
  = (Ok (template_render cached c),
     MkWorld _ (render_context w1) (form_html w1) (loader w1)
               (trace w1 ++ [CallTemplateRender cached c])).
Proof using Hresolve Hresolved.
  intros Hdebug cached.
  destruct get_render_frame as (His & _).
  subst cached. unfold render. unfold bind at 1. rewrite get_render_Ok.
  unfold bind at 1, lift, getitem. rewrite His. cbn [truthy].
  rewrite Hdebug. destruct (isinstance_BaseFormSet actual_form); reflexivity.
Qed.

End TemplateSelection.

Lemma get_response_dict_Ok `{O : DictOrder}
    (attrs attrs_attrs : gmap string PyObj) (layout : option Layout)
    (context : gmap string PyObj) (is_formset : bool) :
  attrs !! "attrs" = Some (PDict attrs_attrs) ->
  exists rd : gmap string PyObj,
    get_response_dict (PHelper attrs layout) context is_formset = Ok rd.
Proof.
  intros Hattrs. rewrite get_response_dict_helper. unfold getitem.
  rewrite Hattrs. cbn [result_bind dict_get]. eexists. reflexivity.
Qed.

(** A helper without a layout: nothing is rendered before the template. *)
Lemma render_resolved_no_layout `{D : Django} `{O : DictOrder}
    (actual_form : PyObj) (attrs context rd : gmap string PyObj) (w : World) :
  get_response_dict (PHelper attrs None) context
    (isinstance_BaseFormSet actual_form) = Ok rd ->
  render_resolved actual_form (PHelper attrs None) context w
  = (Ok (dict_update rd
           {[(if isinstance_BaseFormSet actual_form then "formset" else "form")
             := actual_form]}), w).
Proof.
  intros Hrd. unfold render_resolved, bind, lift. rewrite Hrd.
  unfold apply_layout. cbn [truthy getattr_layout bind lift ret].
  destruct (isinstance_BaseFormSet actual_form); reflexivity.
Qed.

Lemma import_module_plain :
  import_module (D := plain_django) debug_settings empty_world
  = (Ok imported_module, imported_world).
Proof. reflexivity. Qed.

Lemma resolve_crispy_form_node :
  resolve_form_and_helper (D := plain_django) crispy_form_node form_context
    imported_world
  = (Ok (form_with_helper, attached_helper),
     with_node crispy_form_node imported_world).
Proof.
  apply (resolve_form_and_helper_omitted (D := plain_django)
           crispy_form_node form_context imported_world form_with_helper).
  - reflexivity.
  - left. apply lookup_empty.
  - unfold resolve, plain_django, plain_resolve, form_context. cbn [var BasicNode.form crispy_form_node BasicNode.__init__].
    rewrite lookup_singleton_eq. reflexivity.
Qed.

(** C5, as stated, fails: in development mode the single form's template
    is looked up by the name [bootstrap/whole_uni_form.html], not
    [bootstrap/whole_form.html]. *)
Lemma C5_template_selection_counterexample :
  let out := render (D := plain_django) (O := canonical_order)
               imported_module debug_settings crispy_form_node form_context
               imported_world in
  lookups (trace (snd out))
  = lookups (trace imported_world) ++ ["bootstrap/whole_uni_form.html"]
  /\ lookups (trace (snd out))
     <> lookups (trace imported_world) ++ ["bootstrap/whole_form.html"].
Proof.
  intros out.
  destruct (get_response_dict_Ok (O := canonical_order)
              {["attrs" := PDict ∅]} ∅ None form_context false
              (lookup_singleton_eq _ _)) as [rd Hrd].
  pose proof (render_debug (D := plain_django) (O := canonical_order)
                imported_module debug_settings crispy_form_node form_context
                imported_world _ _ form_with_helper attached_helper _
                resolve_crispy_form_node
                (render_resolved_no_layout form_with_helper _ _ _ _ Hrd)
                eq_refl) as Hrender.
  cbv zeta in Hrender. destruct Hrender as (Hlookups & _).
  assert (Hout : lookups (trace (snd out))
                 = lookups (trace imported_world)
                   ++ ["bootstrap/whole_uni_form.html"]) by exact Hlookups.
  split; [exact Hout|]. rewrite Hout. intros E.
  apply app_inv_head in E. discriminate E.
Qed.

(** C5, amended.  The module is imported once: [import_module] looks up
    [pack/whole_uni_formset.html] and then [pack/whole_uni_form.html],
    where [pack] is the setting [CRISPY_TEMPLATE_PACK] or ["bootstrap"],
    and keeps the two templates.  A later call of [render] whose
    [get_render] returns a context [c]:
    - with [settings.DEBUG], looks up the template again, once, by
      [pack/whole_uni_formset.html] for a formset and
      [pack/whole_uni_form.html] for a single form, in the loader's state
      at the time of the call, and renders what this lookup returns;
    - without it, looks nothing up, leaves the loader alone and renders
      the template kept at the import. *)
Theorem C5_template_selection `{D : Django} `{O : DictOrder}
    (import_settings : Settings) (w_import w_imported : World)
    (module : TagModule)
    (settings : Settings) (node : BasicNode.t) (context : gmap string PyObj)
    (w w0 w1 : World) (actual_form helper : PyObj) (c : gmap string PyObj) :
  import_module import_settings w_import = (Ok module, w_imported) ->
  resolve_form_and_helper node context w = (Ok (actual_form, helper), w0) ->
  render_resolved actual_form helper context w0 = (Ok c, w1) ->
  let pack := default "bootstrap" (CRISPY_TEMPLATE_PACK import_settings) in
  let is_formset := isinstance_BaseFormSet actual_form in
  let name := pack +:+ (if is_formset then "/whole_uni_formset.html"
                        else "/whole_uni_form.html") in
  let cached := if is_formset then whole_uni_formset_template module
                else whole_uni_form_template module in
  let out := render module settings node context w in
  (lookups (trace w_imported)
   = lookups (trace w_import)
     ++ [pack +:+ "/whole_uni_formset.html"; pack +:+ "/whole_uni_form.html"]
   /\ exists loader1 : Loader,
        get_template (pack +:+ "/whole_uni_formset.html") (loader w_import)
        = (Ok (whole_uni_formset_template module), loader1)
        /\ get_template (pack +:+ "/whole_uni_form.html") loader1
           = (Ok (whole_uni_form_template module), loader w_imported))
  /\ (DEBUG settings = true ->
      lookups (trace (snd out)) = lookups (trace w) ++ [name]
      /\ loader (snd out) = snd (get_template name (loader w))
      /\ fst out = match fst (get_template name (loader w)) with
                   | Ok template => Ok (template_render template c)
                   | Raise e => Raise e
                   end)
  /\ (DEBUG settings = false ->
      lookups (trace (snd out)) = lookups (trace w)
      /\ loader (snd out) = loader w
      /\ fst out = Ok (template_render cached c)
      /\ trace (snd out) = trace w1 ++ [CallTemplateRender cached c]).
Proof.
  intros Himport Hresolve Hresolved pack is_formset name cached out.
  destruct (import_module_Ok _ _ _ _ Himport) as (Hpack & Hlookups & Hloaded).
  fold pack in Hpack, Hlookups, Hloaded.
  split; [split; [exact Hlookups | exact Hloaded]|]. split.
  - intros Hdebug.
    pose proof (render_debug module settings node context w w0 w1
                  actual_form helper c Hresolve Hresolved Hdebug) as Hrender.
    cbv zeta in Hrender. rewrite Hpack in Hrender. exact Hrender.
  - intros Hdebug.
    pose proof (render_cached module settings node context w w0 w1
                  actual_form helper c Hresolve Hresolved Hdebug) as Hrender.
    cbv zeta in Hrender. fold is_formset cached in Hrender.
    destruct (get_render_frame node context w w0 w1 actual_form helper c
                Hresolve Hresolved) as (_ & Hl & Hld).
    subst out. rewrite Hrender. cbn [fst snd trace loader].
    rewrite lookups_app, Hl. cbn [lookups omap list_omap].
    rewrite app_nil_r. repeat split; try reflexivity. exact Hld.
Qed.

(** The development configuration at a single form: one more lookup, by
    [bootstrap/whole_uni_form.html]. *)
Lemma C5_template_selection_witness :
  lookups (trace (snd (render (D := plain_django) (O := canonical_order)
                         imported_module debug_settings crispy_form_node
                         form_context imported_world)))
  = lookups (trace imported_world) ++ ["bootstrap/whole_uni_form.html"].
Proof.
  destruct (get_response_dict_Ok (O := canonical_order)
              {["attrs" := PDict ∅]} ∅ None form_context false
              (lookup_singleton_eq _ _)) as [rd Hrd].
  exact (proj1 (proj1 (proj2 (C5_template_selection
           (D := plain_django) (O := canonical_order)
           debug_settings empty_world imported_world imported_module
           debug_settings crispy_form_node form_context
           imported_world _ _ form_with_helper attached_helper _
           import_module_plain resolve_crispy_form_node
           (render_resolved_no_layout form_with_helper _ _ _ _ Hrd))) eq_refl)).
Defined.

(** * Further properties of the tag module *)

(** ** get_response_dict: errors, keys and values *)

Section ResponseDictMore.
Context `{O : DictOrder}.

(** A returned dictionary, taken apart. *)
Lemma get_response_dict_inv (attrs : gmap string PyObj)
    (layout : option Layout) (context rd : gmap string PyObj)
    (is_formset : bool) :
  get_response_dict (PHelper attrs layout) context is_formset = Ok rd ->
  exists attrs_attrs : gmap string PyObj,
    attrs !! "attrs" = Some (PDict attrs_attrs)
    /\ rd = match context !! "csrf_token" with
            | Some token =>
              <["csrf_token" := token]>
                (response_dict_display attrs
                   (default (PStr "") (attrs_attrs !! "action"))
                   (default (PStr "") (attrs_attrs !! "class"))
                   (default (PStr "") (attrs_attrs !! "id")) is_formset ∪ attrs)
            | None =>
              response_dict_display attrs
                (default (PStr "") (attrs_attrs !! "action"))
                (default (PStr "") (attrs_attrs !! "class"))
                (default (PStr "") (attrs_attrs !! "id")) is_formset ∪ attrs
            end.
Proof.
  intros Hrd. rewrite get_response_dict_helper in Hrd. unfold getitem in Hrd.
  destruct (attrs !! "attrs") as [a|]; [|discriminate Hrd].
  destruct a as [| | | |attrs_attrs| | | |]; try discriminate Hrd.
  cbn [result_bind dict_get] in Hrd. cbv zeta in Hrd.
  exists attrs_attrs. split; [reflexivity|]. congruence.
Qed.

(** Membership in the computed keys is what the display knows. *)
Lemma response_dict_display_is_Some (attrs : gmap string PyObj)
    (action class id : PyObj) (is_formset : bool) (k : string) :
  is_Some (response_dict_display attrs action class id is_formset !! k)
  <-> k ∈ computed_keys (if is_formset then "formset" else "form").
Proof.
  split.
  - intros Hsome.
    destruct (decide (k ∈ computed_keys (if is_formset then "formset" else "form")))
      as [Hin|Hnot]; [exact Hin|].
    rewrite (response_dict_display_other _ _ _ _ _ _ Hnot) in Hsome.
    destruct Hsome as [x Hx]. discriminate Hx.
  - apply response_dict_display_computed.
Qed.

End ResponseDictMore.

(** X1. [get_response_dict] on a [FormHelper] fails exactly when the
    helper's attributes have no usable ["attrs"] entry: [KeyError] when
    the key is missing, [AttributeError] when its value is not a
    dictionary; with a dictionary there it returns a response dictionary,
    whatever else the attributes, the context and the kind of form are. *)
Theorem X1_get_response_dict_failures `{O : DictOrder}
    (attrs : gmap string PyObj) (layout : option Layout)
    (context : gmap string PyObj) (is_formset : bool) :
  match attrs !! "attrs" with
  | None =>
    get_response_dict (PHelper attrs layout) context is_formset = Raise KeyError
  | Some (PDict _) =>
    exists rd, get_response_dict (PHelper attrs layout) context is_formset = Ok rd
  | Some _ =>
    get_response_dict (PHelper attrs layout) context is_formset
    = Raise AttributeError
  end.
Proof.
  rewrite get_response_dict_helper. unfold getitem.
  destruct (attrs !! "attrs") as [a|]; [|reflexivity].
  destruct a; cbn [result_bind dict_get]; try reflexivity.
  eexists. reflexivity.
Qed.

(** X2. The keys of a returned response dictionary are the fifteen
    computed keys, the names of the helper's attributes and, when the
    ambient context carries one, [csrf_token]: nothing else. *)
Theorem X2_response_dict_keys `{O : DictOrder}
    (attrs : gmap string PyObj) (layout : option Layout)
    (context rd : gmap string PyObj) (is_formset : bool) (k : string) :
  get_response_dict (PHelper attrs layout) context is_formset = Ok rd ->
  is_Some (rd !! k)
  <-> (k ∈ computed_keys (if is_formset then "formset" else "form"))
      \/ is_Some (attrs !! k)
      \/ (k = "csrf_token" /\ is_Some (context !! "csrf_token")).
Proof.
  intros Hrd.
  destruct (get_response_dict_inv _ _ _ _ _ Hrd) as (attrs_attrs & _ & ->).
  destruct (context !! "csrf_token") as [token|].
  - rewrite lookup_insert_is_Some, lookup_union_is_Some,
      response_dict_display_is_Some.
    split.
    + intros [<-|[_ [Hin|Hattr]]].
      * right. right. split; [reflexivity | eexists; reflexivity].
      * left. exact Hin.
      * right. left. exact Hattr.
    + destruct (decide ("csrf_token" = k)) as [Heq|Hne]; [left; exact Heq|].
      intros [Hin|[Hattr|[Hk _]]].
      * right. split; [exact Hne | left; exact Hin].
      * right. split; [exact Hne | right; exact Hattr].
      * exfalso. apply Hne. symmetry. exact Hk.
  - rewrite lookup_union_is_Some, response_dict_display_is_Some.
    split.
    + intros [Hin|Hattr]; [left; exact Hin | right; left; exact Hattr].
    + intros [Hin|[Hattr|[_ [x Hx]]]];
        [left; exact Hin | right; exact Hattr | discriminate Hx].
Qed.

Lemma X2_response_dict_keys_witness :
  is_Some (token_response_dict !! "extra")
  <-> ("extra" ∈ computed_keys "form")
      \/ is_Some (token_attrs !! "extra")
      \/ ("extra" = "csrf_token" /\ is_Some (token_context !! "csrf_token")).
Proof.
  exact (X2_response_dict_keys (O := canonical_order) token_attrs None
           token_context token_response_dict false "extra"
           token_response_dict_eq).
Defined.

(** X3. For a formset the method, tag and style options of the helper are
    published under [formset_method], [formset_tag] and [formset_style],
    with the defaults ["post"], true and [None]; the helper's own
    attributes [form_method], [form_tag] and [form_style] are not computed
    keys then, and pass through under their own names: present exactly
    when the helper sets them. *)
Theorem X3_formset_keys `{O : DictOrder}
    (attrs : gmap string PyObj) (layout : option Layout)
    (context rd : gmap string PyObj) :
  get_response_dict (PHelper attrs layout) context true = Ok rd ->
  rd !! "is_formset" = Some (PBool true)
  /\ rd !! "formset_method" = Some (default (PStr "post") (attrs !! "form_method"))
  /\ rd !! "formset_tag" = Some (default (PBool true) (attrs !! "form_tag"))
  /\ rd !! "formset_style" = Some (default PNone (attrs !! "form_style"))
  /\ rd !! "form_method" = attrs !! "form_method"
  /\ rd !! "form_tag" = attrs !! "form_tag"
  /\ rd !! "form_style" = attrs !! "form_style".
Proof.
  intros Hrd.
  destruct (get_response_dict_inv _ _ _ _ _ Hrd) as (attrs_attrs & _ & ->).
  assert (Hcomputed : forall k v (token : option PyObj),
    response_dict_display attrs (default (PStr "") (attrs_attrs !! "action"))
      (default (PStr "") (attrs_attrs !! "class"))
      (default (PStr "") (attrs_attrs !! "id")) true !! k = Some v ->
    "csrf_token" <> k ->
    match token with
    | Some t =>
      <["csrf_token" := t]>
        (response_dict_display attrs (default (PStr "") (attrs_attrs !! "action"))
           (default (PStr "") (attrs_attrs !! "class"))
           (default (PStr "") (attrs_attrs !! "id")) true ∪ attrs)
    | None =>
      response_dict_display attrs (default (PStr "") (attrs_attrs !! "action"))
        (default (PStr "") (attrs_attrs !! "class"))
        (default (PStr "") (attrs_attrs !! "id")) true ∪ attrs
    end !! k = Some v).
  { intros k v [t|] Hk Hne; [rewrite lookup_insert_ne by exact Hne|];
      apply lookup_union_Some_l; exact Hk. }
  assert (Hpass : forall k (token : option PyObj),
    k ∉ computed_keys "formset" -> "csrf_token" <> k ->
    match token with
    | Some t =>
      <["csrf_token" := t]>
        (response_dict_display attrs (default (PStr "") (attrs_attrs !! "action"))
           (default (PStr "") (attrs_attrs !! "class"))
           (default (PStr "") (attrs_attrs !! "id")) true ∪ attrs)
    | None =>
      response_dict_display attrs (default (PStr "") (attrs_attrs !! "action"))
        (default (PStr "") (attrs_attrs !! "class"))
        (default (PStr "") (attrs_attrs !! "id")) true ∪ attrs
    end !! k = attrs !! k).
  { intros k [t|] Hnot Hne; [rewrite lookup_insert_ne by exact Hne|];
      apply lookup_union_r;
      apply (response_dict_display_other _ _ _ _ true); exact Hnot. }
  repeat split.
  1-4: apply Hcomputed; [unfold_display; lookup_literal; reflexivity | neq_literal].
  all: apply Hpass; [not_computed_key | neq_literal].
Qed.

(** A formset and a helper that sets nothing: [formset_method] is the
    default, and there is no [form_method]. *)
Lemma X3_formset_keys_witness :
  exists rd : gmap string PyObj,
    get_response_dict (O := canonical_order)
      (PHelper {["attrs" := PDict ∅]} None) ∅ true = Ok rd
    /\ rd !! "formset_method" = Some (PStr "post")
    /\ rd !! "form_method" = None.
Proof.
  destruct (get_response_dict_Ok (O := canonical_order)
              {["attrs" := PDict ∅]} ∅ None ∅ true (lookup_singleton_eq _ _))
    as [rd Hrd].
  exists rd. split; [exact Hrd|].
  pose proof (X3_formset_keys (O := canonical_order) _ _ _ _ Hrd)
    as (_ & Hmethod & _ & _ & Hform & _).
  split; [exact Hmethod | exact Hform].
Defined.

(** X4. Of the ambient context [get_response_dict] reads [csrf_token]
    only: two contexts that agree there give the same result, so no
    other variable of the calling template reaches the response
    dictionary. *)
Theorem X4_context_read_at_csrf_token_only `{O : DictOrder}
    (helper : PyObj) (context1 context2 : gmap string PyObj)
    (is_formset : bool) :
  context1 !! "csrf_token" = context2 !! "csrf_token" ->
  get_response_dict helper context1 is_formset
  = get_response_dict helper context2 is_formset.
Proof.
  intros Htoken. destruct helper; try reflexivity.
  rewrite !get_response_dict_helper. rewrite Htoken. reflexivity.
Qed.

Lemma X4_context_read_at_csrf_token_only_witness :
  get_response_dict (O := canonical_order) attached_helper
    {["form" := form_with_helper]} false
  = get_response_dict (O := canonical_order) attached_helper ∅ false.
Proof.
  apply (X4_context_read_at_csrf_token_only (O := canonical_order)).
  rewrite lookup_singleton_ne by neq_literal. rewrite lookup_empty.
  reflexivity.
Defined.

(** X5. Under [csrf_token] a returned response dictionary holds the
    ambient context's token when there is one; otherwise it holds what the
    helper declares under that name, and nothing when the helper declares
    nothing. *)
Theorem X5_csrf_token_entry `{O : DictOrder}
    (attrs : gmap string PyObj) (layout : option Layout)
    (context rd : gmap string PyObj) (is_formset : bool) :
  get_response_dict (PHelper attrs layout) context is_formset = Ok rd ->
  rd !! "csrf_token" = match context !! "csrf_token" with
                       | Some token => Some token
                       | None => attrs !! "csrf_token"
                       end.
Proof.
  intros Hrd.
  destruct (get_response_dict_inv _ _ _ _ _ Hrd) as (attrs_attrs & _ & ->).
  destruct (context !! "csrf_token") as [token|].
  - apply lookup_insert_eq.
  - apply lookup_union_r. apply response_dict_display_other.
    apply csrf_token_not_computed.
Qed.

Lemma X5_csrf_token_entry_witness :
  token_response_dict !! "csrf_token"
  = match token_context !! "csrf_token" with
    | Some token => Some token
    | None => token_attrs !! "csrf_token"
    end.
Proof.
  exact (X5_csrf_token_entry (O := canonical_order) token_attrs None
           token_context token_response_dict false token_response_dict_eq).
Defined.

(** A value of the dictionary display is the value of the result. *)
Lemma response_dict_computed_value `{O : DictOrder}
    (attrs attrs_attrs : gmap string PyObj) (layout : option Layout)
    (context rd : gmap string PyObj) (is_formset : bool)
    (k : string) (v : PyObj) :
  attrs !! "attrs" = Some (PDict attrs_attrs) ->
  get_response_dict (PHelper attrs layout) context is_formset = Ok rd ->
  response_dict_display attrs
    (default (PStr "") (attrs_attrs !! "action"))
    (default (PStr "") (attrs_attrs !! "class"))
    (default (PStr "") (attrs_attrs !! "id")) is_formset !! k = Some v ->
  rd !! k = Some v.
Proof.
  intros Hattrs Hrd Hk.
  destruct (get_response_dict_inv _ _ _ _ _ Hrd) as (attrs_attrs' & Hattrs' & ->).
  assert (attrs_attrs' = attrs_attrs) as -> by congruence.
  assert (Hne : "csrf_token" <> k).
  { intros <-. apply (csrf_token_not_computed is_formset).
    apply (response_dict_display_is_Some attrs
             (default (PStr "") (attrs_attrs !! "action"))
             (default (PStr "") (attrs_attrs !! "class"))
             (default (PStr "") (attrs_attrs !! "id"))).
    eexists. exact Hk. }
  destruct (context !! "csrf_token") as [token|];
    [rewrite lookup_insert_ne by exact Hne|];
    apply lookup_union_Some_l; exact Hk.
Qed.

(** X6. The HTML attributes of the form come from the dictionary the
    helper keeps under ["attrs"]: its [action], [class] and [id], each
    defaulting to the empty string, are published under the prefixed keys
    for a form and for a formset alike, and the dictionary itself is
    published whole under [form_attrs] or [formset_attrs] and, as a
    helper attribute that is no computed key, under [attrs]. *)
Theorem X6_html_attributes `{O : DictOrder}
    (attrs attrs_attrs : gmap string PyObj) (layout : option Layout)
    (context : gmap string PyObj) (is_formset : bool) :
  attrs !! "attrs" = Some (PDict attrs_attrs) ->
  exists rd : gmap string PyObj,
    get_response_dict (PHelper attrs layout) context is_formset = Ok rd
    /\ rd !! ((if is_formset then "formset" else "form") +:+ "_action")
       = Some (default (PStr "") (attrs_attrs !! "action"))
    /\ rd !! ((if is_formset then "formset" else "form") +:+ "_class")
       = Some (default (PStr "") (attrs_attrs !! "class"))
    /\ rd !! ((if is_formset then "formset" else "form") +:+ "_id")
       = Some (default (PStr "") (attrs_attrs !! "id"))
    /\ rd !! ((if is_formset then "formset" else "form") +:+ "_attrs")
       = Some (PDict attrs_attrs)
    /\ rd !! "attrs" = Some (PDict attrs_attrs).
Proof.
  intros Hattrs.
  destruct (get_response_dict_Ok attrs attrs_attrs layout context is_formset Hattrs)
    as [rd Hrd].
  exists rd. split; [exact Hrd|].
  repeat split.
  1-4: apply (response_dict_computed_value _ _ _ _ _ _ _ _ Hattrs Hrd);
       destruct is_formset; unfold_display; lookup_literal;
       rewrite ?Hattrs; reflexivity.
  destruct (get_response_dict_inv _ _ _ _ _ Hrd) as (attrs_attrs' & _ & ->).
  destruct (context !! "csrf_token") as [token|];
    [rewrite lookup_insert_ne by neq_literal|];
    (rewrite lookup_union_r;
     [exact Hattrs
     | apply response_dict_display_other; destruct is_formset; not_computed_key]).
Qed.

Lemma X6_html_attributes_witness :
  exists rd : gmap string PyObj,
    get_response_dict (O := canonical_order)
      (PHelper {["attrs" := PDict {["class" := PStr "wide"]}]} None) ∅ false
    = Ok rd
    /\ rd !! "form_class" = Some (PStr "wide")
    /\ rd !! "form_attrs" = Some (PDict {["class" := PStr "wide"]}).
Proof.
  destruct (X6_html_attributes (O := canonical_order)
              {["attrs" := PDict {["class" := PStr "wide"]}]}
              {["class" := PStr "wide"]} None ∅ false (lookup_singleton_eq _ _))
    as (rd & Hrd & _ & Hclass & _ & Hattrs & _).
  exists rd. split; [exact Hrd|]. split; [|exact Hattrs].
  refine (eq_trans Hclass _). rewrite lookup_singleton_eq. reflexivity.
Defined.

(** X7. The options that do not depend on the kind of form are always
    present in a returned response dictionary, for a form and for a
    formset alike, with the helper's value when it sets one and otherwise
    the default: no error titles, errors shown, help text not inline, no
    HTML5 [required], no inputs, empty flat attributes. *)
Theorem X7_common_options `{O : DictOrder}
    (attrs : gmap string PyObj) (layout : option Layout)
    (context rd : gmap string PyObj) (is_formset : bool) :
  get_response_dict (PHelper attrs layout) context is_formset = Ok rd ->
  rd !! "form_error_title" = Some (default PNone (attrs !! "form_error_title"))
  /\ rd !! "formset_error_title"
     = Some (default PNone (attrs !! "formset_error_title"))
  /\ rd !! "form_show_errors"
     = Some (default (PBool true) (attrs !! "form_show_errors"))
  /\ rd !! "help_text_inline"
     = Some (default (PBool false) (attrs !! "help_text_inline"))
  /\ rd !! "html5_required"
     = Some (default (PBool false) (attrs !! "html5_required"))
  /\ rd !! "inputs" = Some (default (PList []) (attrs !! "inputs"))
  /\ rd !! "flat_attrs" = Some (default (PStr "") (attrs !! "flat_attrs")).
Proof.
  intros Hrd.
  destruct (get_response_dict_inv _ _ _ _ _ Hrd) as (attrs_attrs & Hattrs & _).
  repeat split;
    apply (response_dict_computed_value _ _ _ _ _ _ _ _ Hattrs Hrd);
    destruct is_formset; unfold_display; lookup_literal; reflexivity.
Qed.

Lemma X7_common_options_witness :
  token_response_dict !! "form_show_errors" = Some (PBool true)
  /\ token_response_dict !! "inputs" = Some (PList []).
Proof.
  pose proof (X7_common_options (O := canonical_order) token_attrs None
                token_context token_response_dict false token_response_dict_eq)
    as (_ & _ & Hshow & _ & _ & Hinputs & _).
  split.
  - rewrite Hshow. unfold token_attrs. lookup_literal. reflexivity.
  - rewrite Hinputs. unfold token_attrs. lookup_literal. reflexivity.
Defined.

(** ** ForLoopSimulator: the counters *)

Lemma iterate_n_first (k : nat) (s : ForLoopSimulator.t) :
  ForLoopSimulator.first (ForLoopSimulator.iterate_n (S k) s) = false.
Proof. rewrite iterate_n_succ. reflexivity. Qed.

(** X8. The simulator of a formset of [n] forms, after [k] calls of
    [iterate], counts as Django's [forloop] does at the turn [k + 1]:
    [counter] is [k + 1], [counter0] is [k], [revcounter] is [n - k],
    [revcounter0] is [n - k - 1], and [first] is true at the first turn
    only; [last] alone departs from it, being true only before any call
    and only when [n] is 1. *)
Theorem X8_forloop_closed_form (n : Z) (k : nat) :
  let s := ForLoopSimulator.iterate_n k (ForLoopSimulator.of_len n) in
  ForLoopSimulator.counter s = Z.of_nat k + 1
  /\ ForLoopSimulator.counter0 s = Z.of_nat k
  /\ ForLoopSimulator.revcounter s = n - Z.of_nat k
  /\ ForLoopSimulator.revcounter0 s = n - Z.of_nat k - 1
  /\ ForLoopSimulator.len_values s = n
  /\ ForLoopSimulator.first s = Nat.eqb k 0
  /\ ForLoopSimulator.last s = (Nat.eqb k 0 && (n =? 1)).
Proof.
  intros s. subst s.
  destruct (iterate_n_fields k (ForLoopSimulator.of_len n))
    as (Hl & Hc & Hc0 & Hr & Hr0).
  rewrite Hl, Hc, Hc0, Hr, Hr0.
  cbn [ForLoopSimulator.of_len ForLoopSimulator.len_values
       ForLoopSimulator.counter ForLoopSimulator.counter0
       ForLoopSimulator.revcounter ForLoopSimulator.revcounter0].
  do 5 (split; [lia|]).
  destruct k as [|k].
  - cbn [ForLoopSimulator.iterate_n ForLoopSimulator.of_len
         ForLoopSimulator.first ForLoopSimulator.last Nat.eqb andb].
    split; [reflexivity|].
    destruct (Z.eqb_spec n 1) as [->|Hne]; [reflexivity|].
    apply Z.eqb_neq. lia.
  - rewrite iterate_n_first, iterate_n_last.
    cbn [ForLoopSimulator.of_len ForLoopSimulator.len_values
         ForLoopSimulator.revcounter0 Nat.eqb andb].
    split; [reflexivity|]. apply Z.eqb_neq. lia.
Qed.

(** ** The layout of a formset, for any number of forms *)

Lemma flags_from_iterated (n : Z) (m k : nat) :
  flags_from (ForLoopSimulator.iterate_n (S k) (ForLoopSimulator.of_len n)) m
  = replicate m (Some (false, false)).
Proof.
  revert k. induction m as [|m IH]; intros k; [reflexivity|].
  cbn [flags_from replicate].
  rewrite <- iterate_n_succ, IH, iterate_n_first, iterate_n_last.
  cbn [ForLoopSimulator.of_len ForLoopSimulator.len_values
       ForLoopSimulator.revcounter0].
  assert (Hne : (n - 1 - Z.of_nat (S k) =? n - 1) = false)
    by (apply Z.eqb_neq; lia).
  rewrite Hne. reflexivity.
Qed.

Section FormsetLayoutFacts.
Context `{D : Django}.

(** The loop over the forms, with the loop simulator each rendering
    finds in its context. *)
Lemma render_formset_forms_seen (helper : PyObj) (forms : list PyObj) :
  forallb has_identity forms = true ->
  forall (forloop : ForLoopSimulator.t) (node_context : gmap string PyObj)
         (w : World),
    forloop_seen
      (trace (snd (render_formset_forms helper forms forloop node_context w)))
    = forloop_seen (trace w)
      ++ imap (fun i form => (form, Some (ForLoopSimulator.iterate_n i forloop)))
           forms.
Proof.
  induction forms as [|form forms IH]; intros Hid forloop node_context w.
  - cbn. rewrite app_nil_r. reflexivity.
  - cbn [forallb] in Hid. apply andb_prop in Hid as [Hform Hforms].
    specialize (IH Hforms).
    destruct (render_formset_forms_turn helper form forms forloop node_context w Hform)
      as (w1 & Heq & Htrace & _).
    set (ctx := dict_update node_context {["forloop" := PForLoop forloop]}) in *.
    assert (Hctx : ctx !! "forloop" = Some (PForLoop forloop)).
    { subst ctx. unfold dict_update. apply lookup_union_Some_l.
      apply lookup_singleton_eq. }
    clearbody ctx. rewrite Heq, IH, Htrace.
    unfold forloop_seen at 1. rewrite omap_app. cbn [omap list_omap].
    rewrite Hctx, <- app_assoc. reflexivity.
Qed.

End FormsetLayoutFacts.

(** X9. With a helper that has a layout, [apply_layout] on a formset of
    any number of forms renders each form once and assigns its
    [form_html], in the order of [formset.forms]; the loop simulator in the
    context of the rendering of the form at index [i] is the simulator of
    the formset after [i] calls of [iterate]; the loader and the render
    context are not touched. *)
Theorem X9_formset_layout_turns `{D : Django}
    (attrs : gmap string PyObj) (layout : Layout)
    (id : nat) (formset_helper : option PyObj) (forms : list PyObj)
    (node_context : gmap string PyObj) (w : World) :
  forallb has_identity forms = true ->
  let helper := PHelper attrs (Some layout) in
  let formset := PFormSet id formset_helper forms in
  let out := apply_layout helper formset (isinstance_BaseFormSet formset)
               node_context w in
  fst out = Ok tt
  /\ form_html_writes (trace (snd out)) = form_html_writes (trace w) ++ forms
  /\ forloop_seen (trace (snd out))
     = forloop_seen (trace w)
       ++ imap (fun i form =>
                  (form,
                   Some (ForLoopSimulator.iterate_n i
                           (ForLoopSimulator.of_len (Z.of_nat (length forms))))))
            forms
  /\ loader (snd out) = loader w
  /\ render_context (snd out) = render_context w.
Proof.
  intros Hid helper formset out.
  destruct (render_formset_forms_trace helper forms Hid
              (ForLoopSimulator.of_len (Z.of_nat (length forms))) node_context w)
    as (Hok & Hwrites & _ & _ & Hloader & Hrc).
  split; [exact Hok|]. split; [exact Hwrites|].
  split; [|split; [exact Hloader | exact Hrc]].
  apply (render_formset_forms_seen helper forms Hid).
Qed.

Lemma X9_formset_layout_turns_witness :
  forloop_seen
    (trace (snd (apply_layout (D := plain_django)
                   (PHelper ∅ (Some 0%nat))
                   (PFormSet 9 None [PForm 1 None; PForm 2 None])
                   true ∅ empty_world)))
  = [(PForm 1 None, Some (ForLoopSimulator.of_len 2));
     (PForm 2 None,
      Some (ForLoopSimulator.iterate (ForLoopSimulator.of_len 2)))].
Proof.
  exact (proj1 (proj2 (proj2 (X9_formset_layout_turns (D := plain_django)
           ∅ 0%nat 9%nat None [PForm 1 None; PForm 2 None] ∅ empty_world
           eq_refl)))).
Defined.

(** X10. In the layout of a formset, [forloop.first] is true for the
    first form and for no other; [forloop.last] is true for no form of a
    formset of two or more forms, and for the only form of a formset of
    one. *)
Theorem X10_formset_layout_flags `{D : Django}
    (attrs : gmap string PyObj) (layout : Layout)
    (id : nat) (formset_helper : option PyObj) (forms : list PyObj)
    (node_context : gmap string PyObj) (w : World) :
  forallb has_identity forms = true ->
  let helper := PHelper attrs (Some layout) in
  let formset := PFormSet id formset_helper forms in
  let out := apply_layout helper formset (isinstance_BaseFormSet formset)
               node_context w in
  forloop_flags (trace (snd out))
  = forloop_flags (trace w)
    ++ match forms with
       | [] => []
       | _ :: forms' =>
         Some (true, match forms' with [] => true | _ :: _ => false end)
         :: replicate (length forms') (Some (false, false))
       end.
Proof.
  intros Hid helper formset out.
  destruct (render_formset_forms_trace helper forms Hid
              (ForLoopSimulator.of_len (Z.of_nat (length forms))) node_context w)
    as (_ & _ & Hflags & _).
  transitivity (forloop_flags (trace w)
                ++ flags_from (ForLoopSimulator.of_len (Z.of_nat (length forms)))
                     (length forms)); [exact Hflags|].
  f_equal. destruct forms as [|form forms']; [reflexivity|].
  cbn [length flags_from].
  change (ForLoopSimulator.iterate
            (ForLoopSimulator.of_len (Z.of_nat (S (length forms')))))
    with (ForLoopSimulator.iterate_n 1
            (ForLoopSimulator.of_len (Z.of_nat (S (length forms'))))).
  rewrite flags_from_iterated.
  cbn [ForLoopSimulator.of_len ForLoopSimulator.first ForLoopSimulator.last].
  f_equal. f_equal. f_equal.
  destruct forms' as [|form' forms'']; [reflexivity|].
  apply Z.eqb_neq. cbn [length]. lia.
Qed.

Lemma X10_formset_layout_flags_witness :
  forloop_flags
    (trace (snd (apply_layout (D := plain_django)
                   (PHelper ∅ (Some 0%nat))
                   (PFormSet 9 None [PForm 1 None])
                   true ∅ empty_world)))
  = [Some (true, true)].
Proof.
  exact (X10_formset_layout_flags (D := plain_django)
           ∅ 0%nat 9%nat None [PForm 1 None] ∅ empty_world eq_refl).
Defined.

(** ** get_render: what it changes and what it returns *)

Section GetRenderMore.
Context `{D : Django} `{O : DictOrder}.

(** Whatever the resolution returns or raises, the world it leaves is the
    one where the node is registered. *)
Lemma resolve_form_and_helper_world (node : BasicNode.t)
    (context : gmap string PyObj) (w : World) :
  snd (resolve_form_and_helper node context w) = with_node node w.
Proof.
  unfold resolve_form_and_helper, with_node, bind, lift, ret, raise.
  destruct (render_context w !! BasicNode.self node) as [entry|] eqn:Hrc.
  - rewrite Hrc.
    destruct (resolve (fst entry) context); [|reflexivity].
    destruct (BasicNode.helper node); [|reflexivity].
    destruct (snd entry) as [v|]; [|reflexivity].
    destruct (resolve v context); reflexivity.
  - cbn [render_context]. rewrite lookup_insert_eq. cbn [fst snd].
    destruct (resolve (MkVariable (BasicNode.form node)) context);
      [|reflexivity].
    destruct (BasicNode.helper node) as [h|]; [|reflexivity].
    destruct (String.eqb h ""); [reflexivity|].
    destruct (resolve (MkVariable h) context); reflexivity.
Qed.

(** Whatever the second part of [get_render] returns or raises, it asks
    the loader nothing and leaves the render context alone. *)
Lemma render_resolved_frame_all (actual_form helper : PyObj)
    (context : gmap string PyObj) (w : World) :
  let out := render_resolved actual_form helper context w in
  lookups (trace (snd out)) = lookups (trace w)
  /\ loader (snd out) = loader w
  /\ render_context (snd out) = render_context w.
Proof.
  unfold render_resolved, bind, lift, ret.
  destruct (get_response_dict helper context (isinstance_BaseFormSet actual_form))
    as [rd|e]; [|repeat split; reflexivity].
  pose proof (apply_layout_frame helper actual_form
                (isinstance_BaseFormSet actual_form)
                (dict_update context rd) w) as Hframe.
  cbv zeta in Hframe.
  destruct (apply_layout helper actual_form (isinstance_BaseFormSet actual_form)
              (dict_update context rd) w) as [[[]|e] w1]; exact Hframe.
Qed.

Lemma get_render_frame_all (node : BasicNode.t)
    (context : gmap string PyObj) (w : World) :
  let out := get_render node context w in
  lookups (trace (snd out)) = lookups (trace w)
  /\ loader (snd out) = loader w.
Proof.
  pose proof (resolve_form_and_helper_world node context w) as Hworld.
  destruct (with_node_frame node w) as (_ & Hloader & Htrace).
  unfold get_render, bind.
  destruct (resolve_form_and_helper node context w) as [[resolved|e] w0].
  - cbn [snd] in Hworld. subst w0.
    destruct (render_resolved_frame_all (fst resolved) (snd resolved) context
                (with_node node w)) as (Hl & Hld & _).
    cbv zeta. rewrite Hl, Hld, Htrace, Hloader. split; reflexivity.
  - cbn [snd] in Hworld. subst w0. cbn [snd].
    rewrite Htrace, Hloader. split; reflexivity.
Qed.

(** A helper without a layout leaves the world as it is. *)
Lemma render_resolved_no_layout_world (actual_form : PyObj)
    (attrs context : gmap string PyObj) (w : World) :
  snd (render_resolved actual_form (PHelper attrs None) context w) = w.
Proof.
  unfold render_resolved, bind, lift.
  destruct (get_response_dict (PHelper attrs None) context
              (isinstance_BaseFormSet actual_form)) as [rd|e]; [|reflexivity].
  unfold apply_layout. cbn [truthy getattr_layout bind lift ret].
  reflexivity.
Qed.

End GetRenderMore.

(** X11. When the resolved helper has no layout, [get_render] assigns no
    [form_html] and calls nothing: it leaves the [form_html] of every
    object, the trace and the loader as they were, whether it returns or
    raises. *)
Theorem X11_no_layout_no_form_html `{D : Django} `{O : DictOrder}
    (node : BasicNode.t) (context : gmap string PyObj) (w w0 : World)
    (actual_form : PyObj) (attrs : gmap string PyObj) :
  resolve_form_and_helper node context w
  = (Ok (actual_form, PHelper attrs None), w0) ->
  let out := get_render node context w in
  form_html (snd out) = form_html w
  /\ trace (snd out) = trace w
  /\ loader (snd out) = loader w.
Proof.
  intros Hresolve out.
  pose proof (resolve_form_and_helper_world node context w) as Hworld.
  rewrite Hresolve in Hworld. cbn [snd] in Hworld.
  assert (Hout : snd out = with_node node w).
  { subst out. unfold get_render, bind. rewrite Hresolve. cbn [fst snd].
    rewrite render_resolved_no_layout_world. exact Hworld. }
  rewrite Hout. destruct (with_node_frame node w) as (Hhtml & Hloader & Htrace).
  split; [exact Hhtml|]. split; [exact Htrace | exact Hloader].
Qed.

Lemma X11_no_layout_no_form_html_witness :
  let out := get_render (D := plain_django) (O := canonical_order)
               crispy_form_node form_context imported_world in
  form_html (snd out) = form_html imported_world
  /\ trace (snd out) = trace imported_world
  /\ loader (snd out) = loader imported_world.
Proof.
  exact (X11_no_layout_no_form_html (D := plain_django) (O := canonical_order)
           crispy_form_node form_context imported_world _ form_with_helper
           {["attrs" := PDict ∅]} resolve_crispy_form_node).
Defined.

(** X12. For a single form and a helper with a layout, the layout is
    rendered once, against the ambient context updated with the response
    dictionary, in which the response keys hide the ambient ones and to
    which neither a loop simulator nor the form itself has been added;
    the markup becomes the form's [form_html]; the form is added to the
    returned dictionary afterwards, under [form]. *)
Theorem X12_single_form_layout `{D : Django} `{O : DictOrder}
    (id : nat) (form_helper : option PyObj)
    (attrs : gmap string PyObj) (layout : Layout)
    (context rd : gmap string PyObj) (w : World) :
  let form := PForm id form_helper in
  let helper := PHelper attrs (Some layout) in
  get_response_dict helper context false = Ok rd ->
  let node_context := rd ∪ context in
  let html := render_layout helper form node_context in
  render_resolved form helper context w
  = (Ok (<["form" := form]> rd),
     MkWorld _ (render_context w) (<[id := html]> (form_html w)) (loader w)
       (trace w ++ [CallRenderLayout helper form node_context;
                    SetFormHtml form html])).
Proof.
  intros form helper Hrd node_context html.
  unfold render_resolved, bind, lift.
  cbn [isinstance_BaseFormSet form]. rewrite Hrd.
  unfold apply_layout.
  cbn [truthy helper getattr_layout bind lift ret negb call_render_layout emit
       setattr_form_html form render_context form_html loader trace].
  rewrite <- app_assoc. unfold dict_update.
  rewrite <- insert_union_singleton_l. reflexivity.
Qed.

Lemma token_response_dict_layout (layout : option Layout) :
  get_response_dict (O := canonical_order)
    (PHelper token_attrs layout) token_context false = Ok token_response_dict.
Proof.
  rewrite get_response_dict_helper.
  rewrite <- (get_response_dict_helper (O := canonical_order) token_attrs None).
  exact token_response_dict_eq.
Qed.

Lemma X12_single_form_layout_witness :
  render_resolved (D := plain_django) (O := canonical_order)
    (PForm 1 None) (PHelper token_attrs (Some 0%nat)) token_context empty_world
  = (Ok (<["form" := PForm 1 None]> token_response_dict),
     MkWorld plain_django ∅
       (<[1%nat := flags_layout (PHelper token_attrs (Some 0%nat)) (PForm 1 None)
                    (token_response_dict ∪ token_context)]> ∅)
       []
       ([] ++ [CallRenderLayout (PHelper token_attrs (Some 0%nat)) (PForm 1 None)
                 (token_response_dict ∪ token_context);
               SetFormHtml (PForm 1 None)
                 (flags_layout (PHelper token_attrs (Some 0%nat)) (PForm 1 None)
                    (token_response_dict ∪ token_context))])).
Proof.
  exact (X12_single_form_layout (D := plain_django) (O := canonical_order)
           1%nat None token_attrs 0%nat token_context token_response_dict
           empty_world (token_response_dict_layout (Some 0%nat))).
Defined.

(** X13. [get_render] never asks the loader for a template: whatever it
    returns or raises, the templates looked up so far and the loader are
    as before. *)
Theorem X13_get_render_looks_nothing_up `{D : Django} `{O : DictOrder}
    (node : BasicNode.t) (context : gmap string PyObj) (w : World) :
  let out := get_render node context w in
  lookups (trace (snd out)) = lookups (trace w)
  /\ loader (snd out) = loader w.
Proof. apply get_render_frame_all. Qed.

(** ** render: how often it asks the loader *)

(** X14. One call of [render] asks the loader for at most one template;
    for none when [settings.DEBUG] is off, in which case the loader is left
    alone; and for none when [get_render] raises, in which case [render]
    raises the same exception and renders no template. *)
Theorem X14_render_lookups `{D : Django} `{O : DictOrder}
    (module : TagModule) (settings : Settings) (node : BasicNode.t)
    (context : gmap string PyObj) (w : World) :
  let out := render module settings node context w in
  exists names : list string,
    lookups (trace (snd out)) = lookups (trace w) ++ names
    /\ (length names <= 1)%nat
    /\ (DEBUG settings = false -> names = [] /\ loader (snd out) = loader w)
    /\ (forall e w', get_render node context w = (Raise e, w') ->
          names = [] /\ out = (Raise e, w')).
Proof.
  intros out. subst out.
  destruct (get_render_frame_all node context w) as (Hl & Hld).
  cbv zeta in Hl, Hld.
  unfold render, call_get_template, call_template_render, emit, ret, lift, bind.
  destruct (get_render node context w) as [[c|e] w1]; cbn [snd] in Hl, Hld.
  - destruct (getitem c "is_formset") as [is_formset|e].
    + destruct (truthy is_formset), (DEBUG settings); cbv iota.
      1,3: match goal with
           | |- context [get_template ?name ?loaded] =>
             exists [name];
             destruct (get_template name loaded) as [[template|e] loader']
           end;
           cbn [snd trace loader];
           rewrite ?lookups_app, Hl; cbn [lookups omap list_omap];
           rewrite ?app_nil_r;
           (split; [reflexivity|]); (split; [cbn [length]; lia|]);
           (split; [intros Hoff; discriminate Hoff|]);
           intros e' w' Heq; discriminate Heq.
      all: exists [];
           cbn [snd trace loader];
           rewrite lookups_app, Hl; cbn [lookups omap list_omap];
           rewrite !app_nil_r;
           (split; [reflexivity|]); (split; [cbn [length]; lia|]);
           (split; [intros _; split; [reflexivity | exact Hld]|]);
           intros e' w' Heq; discriminate Heq.
    + exists []. cbn [snd]. rewrite app_nil_r.
      split; [exact Hl|]. split; [cbn [length]; lia|].
      split; [intros _; split; [reflexivity | exact Hld]|].
      intros e' w' Heq. discriminate Heq.
  - exists []. cbn [snd]. rewrite app_nil_r.
    split; [exact Hl|]. split; [cbn [length]; lia|].
    split; [intros _; split; [reflexivity | exact Hld]|].
    intros e' w' Heq. injection Heq as -> ->. split; reflexivity.
Qed.

(** ** The tag and the resolution of its arguments *)



(** X16. A node built with the empty string as helper name has a helper
    that is not [None] but no helper variable: once the form is resolved,
    [get_render] raises [AttributeError] instead of falling back on the
    form's own helper. *)
Theorem X16_empty_helper_name `{D : Django} `{O : DictOrder}
    (self : nat) (form_name : string)
    (context : gmap string PyObj) (w : World) (actual_form : PyObj) :
  let node := BasicNode.__init__ self form_name (Some "") in
  render_context w !! self = None ->
  resolve (MkVariable form_name) context = Ok actual_form ->
  get_render node context w = (Raise AttributeError, with_node node w).
Proof.
  intros node Hrc Hform.
  unfold get_render, resolve_form_and_helper, with_node, bind, lift, ret, raise.
  cbn [BasicNode.self BasicNode.form BasicNode.helper node BasicNode.__init__].
  rewrite Hrc. cbn [String.eqb render_context]. rewrite lookup_insert_eq.
  cbn [fst snd]. rewrite Hform. reflexivity.
Qed.

Lemma X16_empty_helper_name_witness :
  get_render (D := plain_django) (O := canonical_order)
    (BasicNode.__init__ 7 "form" (Some "")) form_context empty_world
  = (Raise AttributeError,
     with_node (BasicNode.__init__ 7 "form" (Some "")) empty_world).
Proof.
  apply (X16_empty_helper_name (D := plain_django) (O := canonical_order)
           7 "form" form_context empty_world form_with_helper).
  - apply lookup_empty.
  - unfold resolve, plain_django, plain_resolve, form_context. cbn [var].
    rewrite lookup_singleton_eq. reflexivity.
Defined.

(** X17. [do_uni_form] needs the tag's name and the form: with fewer than
    two tokens it raises [IndexError], and with two or more it never
    does; the third token, when there is one, is the helper, and the
    tokens after it are ignored. *)
Theorem X17_do_uni_form_tokens (self : nat) (token : list string) :
  (do_uni_form self token = Raise IndexError <-> (length token < 2)%nat)
  /\ (forall tag form helper extra,
        token = tag :: form :: helper :: extra ->
        do_uni_form self token = do_uni_form self [tag; form; helper]
        /\ do_uni_form self token
           = Ok (BasicNode.__init__ self form (Some helper)))
  /\ (forall tag form,
        token = [tag; form] ->
        do_uni_form self token = Ok (BasicNode.__init__ self form None)).
Proof.
  split; [|split].
  - destruct token as [|tag [|form rest]]; cbn [do_uni_form length].
    + split; [intros _; lia | reflexivity].
    + split; [intros _; lia | reflexivity].
    + split; [intros Hr; discriminate Hr | intros Hlen; lia].
  - intros tag form helper extra ->. split; reflexivity.
  - intros tag form ->. reflexivity.
Qed.


(** X19. A context returned by [get_render] holds the resolved object
    under [formset] when it is a formset and under [form] otherwise, the
    flag [is_formset] that says which, and under every other key what the
    response dictionary of the resolved helper holds there. *)
Theorem X19_returned_context `{D : Django} `{O : DictOrder}
    (node : BasicNode.t) (context : gmap string PyObj) (w w0 w' : World)
    (actual_form helper : PyObj) (c : gmap string PyObj) :
  resolve_form_and_helper node context w = (Ok (actual_form, helper), w0) ->
  get_render node context w = (Ok c, w') ->
  let is_formset := isinstance_BaseFormSet actual_form in
  let key := if is_formset then "formset" else "form" in
  c !! key = Some actual_form
  /\ c !! "is_formset" = Some (PBool is_formset)
  /\ exists rd : gmap string PyObj,
       get_response_dict helper context is_formset = Ok rd
       /\ forall k : string, k <> key -> c !! k = rd !! k.
Proof.
  intros Hresolve Hget is_formset key.
  unfold get_render, bind in Hget. rewrite Hresolve in Hget. cbn [fst snd] in Hget.
  destruct (render_resolved_frame _ _ _ _ _ _ Hget) as (Hflag & _).
  destruct (render_resolved_Ok _ _ _ _ _ _ Hget) as (rd & Hrd & Hc).
  fold is_formset in Hflag, Hrd, Hc. fold key in Hc.
  split; [|split; [exact Hflag|]].
  - rewrite Hc. unfold dict_update. apply lookup_union_Some_l.
    apply lookup_singleton_eq.
  - exists rd. split; [exact Hrd|]. intros k Hk.
    rewrite Hc. unfold dict_update. apply lookup_union_r.
    apply lookup_singleton_ne. intros Heq. apply Hk. symmetry. exact Heq.
Qed.

Lemma X19_returned_context_witness :
  exists (c : gmap string PyObj) (w' : World (D := plain_django)),
    get_render (D := plain_django) (O := canonical_order)
      crispy_form_node form_context imported_world = (Ok c, w')
    /\ c !! "form" = Some form_with_helper
    /\ c !! "is_formset" = Some (PBool false).
Proof.
  destruct (get_response_dict_Ok (O := canonical_order)
              {["attrs" := PDict ∅]} ∅ None form_context false
              (lookup_singleton_eq _ _)) as [rd Hrd].
  assert (Hget : get_render (D := plain_django) (O := canonical_order)
                   crispy_form_node form_context imported_world
                 = (Ok (dict_update rd {["form" := form_with_helper]}),
                    with_node crispy_form_node imported_world)).
  { unfold get_render, bind. rewrite resolve_crispy_form_node. cbn [fst snd].
    exact (render_resolved_no_layout form_with_helper _ _ _ _ Hrd). }
  eexists. eexists. split; [exact Hget|].
  destruct (X19_returned_context (D := plain_django) (O := canonical_order)
              crispy_form_node form_context imported_world _ _
              form_with_helper attached_helper _
              resolve_crispy_form_node Hget) as (Hform & Hflag & _).
  split; [exact Hform | exact Hflag].
Defined.

(** ** The import of the module *)

(** X20. The two templates are looked up when the module is imported,
    the formset template first: when that lookup fails the import raises
    its exception, the form template is never asked for, and no module
    exists to render with. *)
Theorem X20_import_fails_at_first_missing_template `{D : Django}
    (settings : Settings) (w : World) (e : Exception) (loader1 : Loader) :
  let pack := default "bootstrap" (CRISPY_TEMPLATE_PACK settings) in
  get_template (pack +:+ "/whole_uni_formset.html") (loader w)
  = (Raise e, loader1) ->
  let out := import_module settings w in
  fst out = Raise e
  /\ lookups (trace (snd out))
     = lookups (trace w) ++ [pack +:+ "/whole_uni_formset.html"]
  /\ loader (snd out) = loader1.
Proof.
  intros pack Hmissing out. subst out.
  unfold import_module, call_get_template, ret, bind. fold pack.
  rewrite Hmissing. cbn [fst snd trace loader].
  rewrite lookups_app. cbn [lookups omap list_omap].
  repeat split; reflexivity.
Qed.

Lemma X20_import_fails_at_first_missing_template_witness :
  let out := import_module (D := missing_templates_django) debug_settings
               (MkWorld missing_templates_django ∅ ∅ tt []) in
  fst out = Raise (External "TemplateDoesNotExist")
  /\ lookups (trace (snd out)) = [] ++ ["bootstrap/whole_uni_formset.html"]
  /\ loader (snd out) = tt.
Proof.
  exact (X20_import_fails_at_first_missing_template
           (D := missing_templates_django) debug_settings
           (MkWorld missing_templates_django ∅ ∅ tt [])
           (External "TemplateDoesNotExist") tt eq_refl).
Defined.
